(** * ftrace.c: the record / replay / live driver of the function tracer

    A shallow embedding of [src/ftrace.c].  C strings are [string], raw
    file contents are [list byte], [unsigned long] values are [Z] taken
    modulo [2^64], the process environment is a finite map from variable
    names to values, and every call into libc or the kernel that the
    program makes is either computed on an explicit [world] or recorded
    in its event log.

    The two headers the file includes, [mcount.h] and [symbol.h], are
    not modelled as code: what ftrace.c needs from them is taken as an
    interface (a class), so every statement below holds for any layout of
    the trace file and any implementation of the symbol table.  Reads of
    an open regular file do not fail otherwise than by reaching its end,
    and the counter of the flat output does not overflow. *)

From Stdlib Require Import ZArith Lia Strings.Byte Strings.Ascii Strings.String.
From Stdlib Require DecimalString HexadecimalString.
From stdpp Require Import base option list sorting gmap strings.

Local Open Scope string_scope.
Local Open Scope list_scope.
Local Open Scope Z_scope.

#[global] Instance byte_eq_dec : EqDecision byte := Byte.byte_eq_dec.

(** ** printf conversions *)

Module Fmt.

Definition two64 : Z := 2 ^ 64.

(** an [unsigned long] argument, as printf sees it *)
Definition ulong (v : Z) : N := Z.to_N (v mod two64).

(** [a - b] on [unsigned long] *)
Definition sub_ulong (a b : Z) : Z := (a - b) mod two64.

Definition spaces (n : nat) : string := string_of_list_ascii (repeat " "%char n).

(** a minimum field width, right justified *)
Definition pad_left (w : nat) (s : string) : string :=
  spaces (w - String.length s) +:+ s.

(** [%lu] *)
Definition lu (v : Z) : string :=
  DecimalString.NilZero.string_of_uint (N.to_uint (ulong v)).

(** [%d] *)
Definition d (v : Z) : string :=
  if v <? 0
  then "-" +:+ DecimalString.NilZero.string_of_uint (N.to_uint (Z.to_N (- v)))
  else DecimalString.NilZero.string_of_uint (N.to_uint (Z.to_N v)).

(** [%#lx]: the alternate form puts 0x before a non-zero value only *)
Definition alt_lx (v : Z) : string :=
  if (ulong v =? 0)%N then "0"
  else "0x" +:+ HexadecimalString.NilZero.string_of_uint (N.to_hex_uint (ulong v)).

(** [%*s] applied to the empty string: a negative width asks for left
    justification in a field of the opposite width, so the padding is
    the same *)
Definition star_empty (w : Z) : string := spaces (Z.to_nat (Z.abs w)).

End Fmt.

(** ** Fixed-size character buffers *)

(** What running a piece of the program gives: a value; or a write past
    the end of a fixed array, after which C says nothing about the
    program; or, for a loop unrolled a bounded number of times, not
    enough turns to reach its end. *)
Inductive outcome (A : Type) :=
| Done (a : A)
| Overrun
| NoFuel.
Arguments Done {A} a.
Arguments Overrun {A}.
Arguments NoFuel {A}.

#[global] Instance outcome_ret : MRet outcome := λ A a, Done a.
#[global] Instance outcome_bind : MBind outcome := λ A B f m,
  match m with
  | Done a => f a
  | Overrun => Overrun
  | NoFuel => NoFuel
  end.
#[global] Instance outcome_fmap : FMap outcome := λ A B f m,
  match m with
  | Done a => Done (f a)
  | Overrun => Overrun
  | NoFuel => NoFuel
  end.

Module CBuf.

(** [snprintf(buf, size, ...)] keeps at most [size - 1] characters of
    the formatted text *)
Definition snprintf (size : nat) (text : string) : string :=
  String.substring 0 (size - 1) text.

(** [strcat(buf, s)] into an array of [size] characters *)
Definition strcat (size : nat) (buf s : string) : outcome string :=
  if decide (String.length buf + String.length s < size)%nat
  then Done (buf +:+ s) else Overrun.

End CBuf.

(** ** strtok *)

Definition is_delim (delim : string) (c : ascii) : bool :=
  existsb (Ascii.eqb c) (list_ascii_of_string delim).

(** skip the delimiters in front of the next token *)
Fixpoint skip_delims (delim s : string) : string :=
  match s with
  | EmptyString => EmptyString
  | String c s' => if is_delim delim c then skip_delims delim s' else s
  end.

(** the token that starts [s], and what follows the delimiter that ends it *)
Fixpoint split_token (delim s : string) : string * string :=
  match s with
  | EmptyString => (EmptyString, EmptyString)
  | String c s' =>
      if is_delim delim c then (EmptyString, s')
      else let '(t, r) := split_token delim s' in (String c t, r)
  end.

(** [strtok(str, delim)]: scanning starts at [str], or at the saved
    position [save] when [str] is NULL.  Returns the token (None for
    NULL) and the new saved position. *)
Definition strtok (str : option string) (delim : string) (save : string)
  : option string * string :=
  match skip_delims delim (default save str) with
  | EmptyString => (None, EmptyString)
  | s => let '(t, r) := split_token delim s in (Some t, r)
  end.

(** ** symbol.h *)

Record sym := { sym_name : string; sym_addr : Z; sym_size : Z }.

(** a file of the file system: its bytes, or the errno that opening it
    for reading gives *)
Inductive fnode :=
| Regular (bytes : list byte)
| Unreadable (errno : Z).

(** The symbol table interface of [symbol.h].  The table of [symbol.c] is
    a process-wide object; here it is a value of type [symtab] carried
    by the [world]. *)
Class SymbolH := {
  symtab : Type;
  (** the table before [load_symtab] and after [unload_symtab] *)
  no_symtab : symtab;
  (** [load_symtab(exename)]: the return code (negative on failure) and
      the table it leaves *)
  load_symtab : gmap string fnode → string → Z * symtab;
  (** [find_symtab(ip)] *)
  find_symtab : symtab → Z → option sym;
  (** [find_symname(name)] *)
  find_symname : symtab → string → option sym;
}.

Section BuildAddrlist.

Context `{SymbolH}.

(** the [while (fname)] loop of [build_addrlist], unrolled [fuel]
    times.  [p] is the C variable of that name (is it still non-NULL?),
    [save] is strtok's saved position. *)
Fixpoint build_addrlist_loop (fuel : nat) (size : nat) (tab : symtab)
    (p : bool) (fname : option string) (save : string) (buf : string)
  : outcome string :=
  match fname with
  | None => Done buf
  | Some name =>
      match fuel with
      | O => NoFuel
      | S fuel' =>
          buf ← match find_symname tab name with
                | Some sym =>
                    let tmp := CBuf.snprintf 64
                                 ((if p then "" else ":") +:+ Fmt.alt_lx (sym_addr sym)) in
                    CBuf.strcat size buf tmp
                | None => Done buf
                end;
          let '(fname', save') := strtok None ",:" save in
          build_addrlist_loop fuel' size tab false fname' save' buf
      end
  end.

(** [build_addrlist(buf, symlist)], [buf] pointing to [size] characters.
    Every turn of the loop uses up at least one character of [symlist]. *)
Definition build_addrlist (size : nat) (tab : symtab) (symlist : string)
  : outcome string :=
  let '(fname, save) := strtok (Some symlist) ",:" "" in
  build_addrlist_loop (S (String.length symlist)) size tab true fname save "".

End BuildAddrlist.

(** ** mcount.h *)

(** [struct mcount_ret_stack], one record of the trace file: the fields
    ftrace.c reads.  [tid] and [depth] are printed with [%d], the other
    four with [%lu]. *)
Record mcount_ret_stack := {
  tid : Z;
  depth : Z;
  parent_ip : Z;
  child_ip : Z;
  start_time : Z;
  end_time : Z;
}.

(** What ftrace.c takes from [mcount.h]: the default trace file name, the
    magic string and version of the header, and the layout of the two
    structs of the trace file, given by their sizes and by how the fields
    are read back from the bytes of a struct. *)
Class McountH := {
  FTRACE_FILE_NAME : string;
  FTRACE_MAGIC_LEN : nat;
  FTRACE_MAGIC_STR : list byte;
  FTRACE_VERSION : Z;
  (** [sizeof(struct ftrace_file_header)], and its fields *)
  header_size : nat;
  header_magic : list byte → list byte;
  header_version : list byte → Z;
  (** [sizeof(struct mcount_ret_stack)], and the struct held by that many bytes *)
  rstack_size : nat;
  decode_rstack : list byte → mcount_ret_stack;
  rstack_size_pos : (0 < rstack_size)%nat;
}.

(** ** The process and its surroundings *)

Inductive event :=
| Printf (text : string)      (* text written to stdout *)
| Perror (prefix : string)    (* perror(prefix): the text after it depends on errno *)
| Fflush                      (* fflush(stdout) *)
| Rename (old new : string)   (* rename(old, new) *)
| Fork                        (* fork() *)
| Waitpid                     (* waitpid(pid, &status, 0) *)
| Mkstemp (name : string)     (* mkstemp(template) made the file [name] *)
| Unlink (path : string).     (* unlink(path) *)

Definition nl : string := String "010"%char EmptyString.

Definition ENOENT : Z := 2.
Definition SIGABRT : Z := 6.

(** [WTERMSIG(status)] and [WIFSIGNALED(status)] of <sys/wait.h> *)
Definition WTERMSIG (status : Z) : Z := Z.land status 127.
Definition WIFSIGNALED (status : Z) : bool :=
  let t := Z.land status 127 in negb (t =? 0) && negb (t =? 127).

(** The parts of the platform whose answers the program cannot compute
    itself. *)
Class Platform := {
  (** does this call of [fork] create a child, given what the process
      did so far? *)
  fork_ok : list event → bool;
  (** [execv(path, argv)] in the child, with the environment the child
      built (or the way building it went wrong): the wait status of the
      child and the file system it leaves, or [None] when [execv] returns *)
  execv : outcome (gmap string string) → string → list string →
          gmap string fnode → option (Z * gmap string fnode);
  (** [mkstemp(template)]: the name of the file created, if any *)
  mkstemp : string → gmap string fnode → option string;
  (** [info.dli_sname] after [dladdr(addr, &info)]; [None] for NULL *)
  dladdr : Z → option string;
  (** the bytes of a [struct ftrace_file_header] that was never assigned *)
  uninit_header : list byte;
}.

(** [struct opts].  The commands dereference [exename] and [filename]
    without a test, so these two are modelled as present. *)
Record opts := {
  lib_path : option string;
  filter : option string;
  notrace : option string;
  exename : string;
  filename : string;
  flat : bool;
  idx : nat;
}.

Definition with_filename (name : string) (o : opts) : opts :=
  {| lib_path := lib_path o; filter := filter o; notrace := notrace o;
     exename := exename o; filename := name; flat := flat o; idx := idx o |}.

(** an open stream: the bytes of the file and the read position *)
Record FILE := { data : list byte; fpos : nat }.

(** [fread(ptr, size, 1, fp)]: the bytes stored at [ptr], at most [size];
    the call returns 1 exactly when there are [size] of them *)
Definition fread (size : nat) (fp : FILE) : list byte * FILE :=
  let got := take size (drop (fpos fp) (data fp)) in
  (got, {| data := data fp; fpos := (fpos fp + length got)%nat |}).

Definition fgetpos (fp : FILE) : nat := fpos fp.
Definition fsetpos (fp : FILE) (pos : nat) : FILE := {| data := data fp; fpos := pos |}.

(** [fopen(path, "rb")]: the stream, or errno *)
Definition fopen (fs : gmap string fnode) (path : string) : FILE + Z :=
  match fs !! path with
  | Some (Regular bytes) => inl {| data := bytes; fpos := 0 |}
  | Some (Unreadable errno) => inr errno
  | None => inr ENOENT
  end.

Section Ftrace.

Context `{SymbolH} `{McountH} `{Platform}.

(** what the process can see and change *)
Record world := {
  fs : gmap string fnode;          (* the files, by path *)
  environ : gmap string string;    (* the environment variables *)
  table : symtab;                  (* the symbol table of symbol.c *)
  debug : bool;                    (* [static bool debug] *)
  count : Z;                       (* [static int count] of print_flat_rstack *)
  log : list event;                (* what the process did, oldest first *)
}.

Definition set_fs (f : gmap string fnode) (w : world) : world :=
  {| fs := f; environ := environ w; table := table w; debug := debug w;
     count := count w; log := log w |}.
Definition set_table (t : symtab) (w : world) : world :=
  {| fs := fs w; environ := environ w; table := t; debug := debug w;
     count := count w; log := log w |}.
Definition set_count (c : Z) (w : world) : world :=
  {| fs := fs w; environ := environ w; table := table w; debug := debug w;
     count := c; log := log w |}.
Definition emit (e : event) (w : world) : world :=
  {| fs := fs w; environ := environ w; table := table w; debug := debug w;
     count := count w; log := log w ++ [e] |}.

Definition printf (text : string) : world → world := emit (Printf text).
Definition perror (prefix : string) : world → world := emit (Perror prefix).

(** *** The environment of the child *)

Definition setenv (name value : string) (env : gmap string string)
  : gmap string string := <[name := value]> env.

(** the interposition library in front of the old value of a variable:
    [snprintf] into [buf], then the two [strcat] when there is an old
    value *)
Definition prepend_lib (lib_dir lib : string) (old : option string)
  : outcome string :=
  let buf := CBuf.snprintf 4096 (lib_dir +:+ "/" +:+ lib) in
  match old with
  | Some old =>
      buf ← CBuf.strcat 4096 buf ":";
      CBuf.strcat 4096 buf old
  | None => Done buf
  end.

(** [setup_child_environ(opts)], run by the child on its copy of the
    environment, of the symbol table and of [debug] *)
Definition setup_child_environ (o : opts) (tab : symtab) (dbg : bool)
    (env : gmap string string) : outcome (gmap string string) :=
  let old_preload := env !! "LD_PRELOAD" in
  let old_audit := env !! "LD_AUDIT" in
  let lib_dir := default "." (lib_path o) in
  buf ← prepend_lib lib_dir "libmcount.so" old_preload;
  let env := setenv "LD_PRELOAD" buf env in
  buf ← prepend_lib lib_dir "librtld-audit.so" old_audit;
  let env := setenv "LD_AUDIT" buf env in
  env ← match filter o with
        | Some symlist =>
            buf ← build_addrlist 4096 tab symlist;
            Done (setenv "FTRACE_FILTER" buf env)
        | None => Done env
        end;
  env ← match notrace o with
        | Some symlist =>
            buf ← build_addrlist 4096 tab symlist;
            Done (setenv "FTRACE_NOTRACE" buf env)
        | None => Done env
        end;
  let env := if decide (filename o = FTRACE_FILE_NAME) then env
             else setenv "FTRACE_FILE" (filename o) env in
  let env := if dbg then setenv "FTRACE_DEBUG" "1" env else env in
  Done env.

(** *** record *)

Definition mcount_msg (symbol exe : string) : string :=
  "ERROR: Can't find '" +:+ symbol +:+ "' symbol in the '" +:+ exe +:+ "'." +:+ nl +:+
  "It seems not to be compiled with -pg flag which generates traceable code." +:+ nl +:+
  "Please check your binary file." +:+ nl.

(** [rename(old, new)]; nothing changes when [old] does not exist *)
Definition rename (old new : string) (w : world) : world :=
  let w := emit (Rename old new) w in
  match fs w !! old with
  | Some node => set_fs (<[new := node]> (delete old (fs w))) w
  | None => w
  end.

(** the child between [fork] and its end, seen from the parent: the
    wait status and the files it leaves *)
Definition child (argv : list string) (o : opts) (w : world)
  : Z * gmap string fnode :=
  let env := setup_child_environ o (table w) (debug w) (environ w) in
  match execv env (exename o) (drop (idx o) argv) (fs w) with
  | Some r => r
  | None => (SIGABRT, fs w)      (* execv came back: abort() *)
  end.

(** backup old 'ftrace.data' file; don't care about the failure *)
Definition backup_old_file (o : opts) (w : world) : world :=
  if decide (FTRACE_FILE_NAME = filename o)
  then rename (filename o) (CBuf.snprintf 512 (filename o +:+ ".old")) w
  else w.

Definition command_record (argv : list string) (o : opts) (w : world)
  : Z * world :=
  let w := backup_old_file o w in
  let '(rc, tab) := load_symtab (fs w) (exename o) in
  let w := set_table tab w in
  if rc <? 0 then (-1, w) else
  match find_symname (table w) "mcount" with
  | None => (-1, printf (mcount_msg "mcount" (exename o)) w)
  | Some _ =>
      let w := emit Fflush w in
      let forked := fork_ok (log w) in
      let w := emit Fork w in
      if negb forked then (-1, perror "fork" w) else
      let '(status, fs') := child argv o w in
      let w := emit Waitpid (set_fs fs' w) in
      let w := if WIFSIGNALED status
               then printf ("child (" +:+ exename o +:+ ") was terminated by signal: "
                            +:+ Fmt.d (WTERMSIG status) +:+ nl) w
               else w in
      match fs w !! filename o with
      | None => (-1, printf ("Cannot generate data file" +:+ nl) w)
      | Some _ => (0, w)
      end
  end.

(** *** replay *)

(** [fread(&header, sizeof(header), 1, fp)] into the unassigned local
    [header]: the bytes the file still has replace the first bytes of
    the struct, the others keep whatever they held *)
Definition fread_header (fp : FILE) : list byte * FILE :=
  let '(got, fp) := fread header_size fp in
  (got ++ drop (length got) (take header_size uninit_header), fp).

(** [memcmp(header.magic, FTRACE_MAGIC_STR, FTRACE_MAGIC_LEN) == 0] *)
Definition magic_ok (header : list byte) : bool :=
  bool_decide (take FTRACE_MAGIC_LEN (header_magic header)
               = take FTRACE_MAGIC_LEN FTRACE_MAGIC_STR).

Definition not_found_msg (name exe : string) : string :=
  "ERROR: Can't find " +:+ name +:+ " file!" +:+ nl +:+
  "Was '" +:+ exe +:+ "' compiled with -pg flag and ran ftrace record?" +:+ nl.

(** [open_data_file(filename, exename)]; [None] is the NULL result *)
Definition open_data_file (name exe : string) (w : world)
  : option FILE * world :=
  match fopen (fs w) name with
  | inr errno =>
      if errno =? ENOENT
      then (None, printf (not_found_msg name exe) w)
      else (None, perror "ftrace" w)
  | inl fp =>
      let '(header, fp) := fread_header fp in
      if negb (magic_ok header)
      then (None, printf ("invalid magic string found!" +:+ nl) w)
      else if negb (header_version header =? FTRACE_VERSION)
      then (None, printf ("invalid vergion number found!" +:+ nl) w)
      else (Some fp, w)
  end.

(** the name printed for an address by the flat output *)
Definition flat_name (tab : symtab) (ip : Z) : string :=
  match find_symtab tab ip with
  | Some s => sym_name s
  | None => default "unknown" (dladdr ip)
  end.

Definition flat_entry_line (n : Z) (r : mcount_ret_stack) (parent child : string)
  : string :=
  "[" +:+ Fmt.d n +:+ "] " +:+ Fmt.d (tid r) +:+ "/" +:+ Fmt.d (depth r) +:+
  ": ip (" +:+ parent +:+ " -> " +:+ child +:+ "), time (" +:+
  Fmt.lu (start_time r) +:+ ")" +:+ nl.

Definition flat_exit_line (n : Z) (r : mcount_ret_stack) (parent child : string)
  : string :=
  "[" +:+ Fmt.d n +:+ "] " +:+ Fmt.d (tid r) +:+ "/" +:+ Fmt.d (depth r) +:+
  ": ip (" +:+ parent +:+ " <- " +:+ child +:+ "), time (" +:+
  Fmt.lu (end_time r) +:+ ":" +:+
  Fmt.lu (Fmt.sub_ulong (end_time r) (start_time r)) +:+ ")" +:+ nl.

Definition print_flat_rstack (rstack : mcount_ret_stack) (fp : FILE) (w : world)
  : Z * FILE * world :=
  let parent_name := flat_name (table w) (parent_ip rstack) in
  let child_name := flat_name (table w) (child_ip rstack) in
  let n := count w in
  let w := set_count (n + 1) w in
  if end_time rstack =? 0
  then (0, fp, printf (flat_entry_line n rstack parent_name child_name) w)
  else (0, fp, printf (flat_exit_line n rstack parent_name child_name) w).

(** the name printed for the called function by the graph output *)
Definition graph_name (tab : symtab) (ip : Z) : string :=
  match find_symtab tab ip with
  | Some s => sym_name s
  | None => "unknown"
  end.

(** the text from the thread column on, shared by the three formats *)
Definition graph_tail (r : mcount_ret_stack) (text : string) : string :=
  " [" +:+ Fmt.pad_left 5 (Fmt.d (tid r)) +:+ "] | " +:+
  Fmt.star_empty (depth r * 2) +:+ text +:+ nl.

(** ["%4lu usec [%5d] | %*s%s();\n"] *)
Definition graph_leaf_line (r : mcount_ret_stack) (usec : Z) (name : string) : string :=
  Fmt.pad_left 4 (Fmt.lu usec) +:+ " usec" +:+ graph_tail r (name +:+ "();").

(** ["%9s [%5d] | %*s%s() {\n"] *)
Definition graph_entry_line (r : mcount_ret_stack) (name : string) : string :=
  Fmt.pad_left 9 "" +:+ graph_tail r (name +:+ "() {").

(** ["%4lu usec [%5d] | %*s} /* %s */\n"] *)
Definition graph_exit_line (r : mcount_ret_stack) (usec : Z) (name : string) : string :=
  Fmt.pad_left 4 (Fmt.lu usec) +:+ " usec" +:+
  graph_tail r ("} /* " +:+ name +:+ " */").

(** [fread(&rstack, sizeof(rstack), 1, fp)]: the record when the call
    returns 1 *)
Definition fread_rstack (fp : FILE) : option mcount_ret_stack * FILE :=
  let '(got, fp) := fread rstack_size fp in
  (if decide (length got = rstack_size) then Some (decode_rstack got) else None, fp).

Definition print_graph_rstack (rstack : mcount_ret_stack) (fp : FILE) (w : world)
  : Z * FILE * world :=
  let name := graph_name (table w) (child_ip rstack) in
  if end_time rstack =? 0 then
    let pos := fgetpos fp in
    match fread_rstack fp with
    | (None, fp) => (-1, fp, perror "error reading rstack" w)
    | (Some rstack_next, fp) =>
        if bool_decide (depth rstack_next = depth rstack)
           && negb (end_time rstack_next =? 0)
        then
          (* leaf function - also consume return record *)
          (0, fp, printf (graph_leaf_line rstack
                            (Fmt.sub_ulong (end_time rstack_next) (start_time rstack))
                            name) w)
        else
          (* function entry; need to re-process return record *)
          (0, fsetpos fp pos, printf (graph_entry_line rstack name) w)
    end
  else
    (* function exit *)
    (0, fp, printf (graph_exit_line rstack
                      (Fmt.sub_ulong (end_time rstack) (start_time rstack)) name) w).

(** the [while (fread(...) == 1)] loop of [command_replay], unrolled
    [fuel] times *)
Fixpoint replay_loop (fuel : nat) (is_flat : bool) (ret : Z) (fp : FILE) (w : world)
  : outcome (Z * FILE * world) :=
  match fuel with
  | O => NoFuel
  | S fuel' =>
      match fread_rstack fp with
      | (None, fp) => Done (ret, fp, w)
      | (Some rstack, fp) =>
          let '(ret, fp, w) :=
            if is_flat then print_flat_rstack rstack fp w
            else print_graph_rstack rstack fp w in
          if negb (ret =? 0) then Done (ret, fp, w)
          else replay_loop fuel' is_flat ret fp w
      end
  end.

(** [command_replay]; every turn of the loop reads at least one byte,
    so one turn per byte of the file and one more are enough *)
Definition command_replay (o : opts) (w : world) : outcome (Z * world) :=
  match open_data_file (filename o) (exename o) w with
  | (None, w) => Done (-1, w)
  | (Some fp, w) =>
      let '(ret, tab) := load_symtab (fs w) (exename o) in
      let w := set_table tab w in
      if ret <? 0 then Done (ret, w) else
      '(ret, _, w) ← replay_loop (S (length (data fp))) (flat o) ret fp w;
      Done (ret, set_table no_symtab w)
  end.

(** *** live *)

Definition command_live (argv : list string) (o : opts) (w : world)
  : outcome (Z * world) :=
  match mkstemp "/tmp/ftrace-live-XXXXXX" (fs w) with
  | None => Done (-1, perror "live command cannot be run" w)
  | Some template =>
      let w := emit (Mkstemp template) (set_fs (<[template := Regular []]> (fs w)) w) in
      let o := with_filename template o in
      let '(rc, w) := command_record argv o w in
      w ← (if rc =? 0 then snd <$> command_replay o w else Done w);
      let w := emit (Unlink (filename o)) (set_fs (delete (filename o) (fs w)) w) in
      Done (0, w)
  end.

Definition command_report (o : opts) (w : world) : Z * world := (0, w).

End Ftrace.

(** ** The command line *)

Module Cli.

(** [struct opts] as [main] declares it: every pointer may be NULL, the
    mode is one of the [FTRACE_MODE_] numbers *)
Record opts := {
  lib_path : option string;
  filter : option string;
  notrace : option string;
  exename : option string;
  filename : option string;
  mode : Z;
  flat : Z;
  idx : nat;
}.

(** the fields of [struct argp_state] that [parse_option] reads *)
Record argp_state := {
  argv : list string;
  next : nat;
  arg_num : nat;
}.

End Cli.

Definition OPT_flat : Z := 301.

Definition FTRACE_MODE_INVALID : Z := 0.
Definition FTRACE_MODE_RECORD : Z := 1.
Definition FTRACE_MODE_REPLAY : Z := 2.
Definition FTRACE_MODE_LIVE : Z := 3.
Definition FTRACE_MODE_REPORT : Z := 4.
Definition FTRACE_MODE_DEFAULT : Z := FTRACE_MODE_LIVE.

(** the keys and the error code of <argp.h> *)
Definition ARGP_KEY_ARG : Z := 0.
Definition ARGP_KEY_INIT : Z := 0x1000003.
Definition ARGP_KEY_ARGS : Z := 0x1000006.
Definition ARGP_KEY_END : Z := 0x1000001.
Definition ARGP_KEY_NO_ARGS : Z := 0x1000002.
Definition ARGP_ERR_UNKNOWN : Z := 7.

(** the code of a character, for the keys of the short options *)
Definition key_of (c : ascii) : Z := Z.of_N (N_of_ascii c).

(** How a call of [parse_option] ends: it returns a code, having left
    [opts] and [debug] in some state; or [argp_usage] prints the usage
    message and ends the process (the flags [main] gives to [argp_parse]
    do not hold ARGP_NO_EXIT); or [strcmp] is given NULL. *)
Inductive parsed :=
| Returns (code : Z) (o : Cli.opts) (dbg : bool)
| Usage
| NullArg.

Definition set_mode (m : Z) (o : Cli.opts) : Cli.opts :=
  {| Cli.lib_path := Cli.lib_path o; Cli.filter := Cli.filter o;
     Cli.notrace := Cli.notrace o; Cli.exename := Cli.exename o;
     Cli.filename := Cli.filename o; Cli.mode := m; Cli.flat := Cli.flat o;
     Cli.idx := Cli.idx o |}.

(** [parse_option(key, arg, state)], [opts] being [state->input] *)
Definition parse_option (key : Z) (arg : option string) (state : Cli.argp_state)
    (o : Cli.opts) (dbg : bool) : parsed :=
  if key =? key_of "L" then
    Returns 0 {| Cli.lib_path := arg; Cli.filter := Cli.filter o;
                 Cli.notrace := Cli.notrace o; Cli.exename := Cli.exename o;
                 Cli.filename := Cli.filename o; Cli.mode := Cli.mode o;
                 Cli.flat := Cli.flat o; Cli.idx := Cli.idx o |} dbg
  else if key =? key_of "F" then
    Returns 0 {| Cli.lib_path := Cli.lib_path o; Cli.filter := arg;
                 Cli.notrace := Cli.notrace o; Cli.exename := Cli.exename o;
                 Cli.filename := Cli.filename o; Cli.mode := Cli.mode o;
                 Cli.flat := Cli.flat o; Cli.idx := Cli.idx o |} dbg
  else if key =? key_of "N" then
    Returns 0 {| Cli.lib_path := Cli.lib_path o; Cli.filter := Cli.filter o;
                 Cli.notrace := arg; Cli.exename := Cli.exename o;
                 Cli.filename := Cli.filename o; Cli.mode := Cli.mode o;
                 Cli.flat := Cli.flat o; Cli.idx := Cli.idx o |} dbg
  else if key =? key_of "d" then
    Returns 0 o true
  else if key =? key_of "f" then
    Returns 0 {| Cli.lib_path := Cli.lib_path o; Cli.filter := Cli.filter o;
                 Cli.notrace := Cli.notrace o; Cli.exename := Cli.exename o;
                 Cli.filename := arg; Cli.mode := Cli.mode o;
                 Cli.flat := Cli.flat o; Cli.idx := Cli.idx o |} dbg
  else if key =? OPT_flat then
    Returns 0 {| Cli.lib_path := Cli.lib_path o; Cli.filter := Cli.filter o;
                 Cli.notrace := Cli.notrace o; Cli.exename := Cli.exename o;
                 Cli.filename := Cli.filename o; Cli.mode := Cli.mode o;
                 Cli.flat := 1; Cli.idx := Cli.idx o |} dbg
  else if key =? ARGP_KEY_ARG then
    if decide (Cli.arg_num state = 0%nat) then
      match arg with
      | None => NullArg
      | Some word =>
          if decide (word = "record") then Returns 0 (set_mode FTRACE_MODE_RECORD o) dbg
          else if decide (word = "replay") then Returns 0 (set_mode FTRACE_MODE_REPLAY o) dbg
          else if decide (word = "live") then Returns 0 (set_mode FTRACE_MODE_LIVE o) dbg
          else Returns ARGP_ERR_UNKNOWN o dbg
      end
    else Returns ARGP_ERR_UNKNOWN o dbg
  else if key =? ARGP_KEY_ARGS then
    Returns 0 {| Cli.lib_path := Cli.lib_path o; Cli.filter := Cli.filter o;
                 Cli.notrace := Cli.notrace o;
                 (* argv[argc] is the NULL that ends argv *)
                 Cli.exename := Cli.argv state !! Cli.next state;
                 Cli.filename := Cli.filename o;
                 Cli.mode := if Cli.mode o =? FTRACE_MODE_INVALID
                             then FTRACE_MODE_DEFAULT else Cli.mode o;
                 Cli.flat := Cli.flat o; Cli.idx := Cli.next state |} dbg
  else if (key =? ARGP_KEY_NO_ARGS) || (key =? ARGP_KEY_END) then
    if bool_decide (Cli.arg_num state < 1)%nat || bool_decide (Cli.exename o = None)
    then Usage
    else Returns 0 o dbg
  else Returns ARGP_ERR_UNKNOWN o dbg.

(** [opts] as [main] initialises it *)
Definition initial_opts : Cli.opts :=
  {| Cli.lib_path := None; Cli.filter := None; Cli.notrace := None;
     Cli.exename := None; Cli.filename := None; Cli.mode := FTRACE_MODE_INVALID;
     Cli.flat := 0; Cli.idx := 0 |}.

(** the calls of [parse_option] that [argp_parse] makes, one after the
    other on the same [opts] and [debug]; what [argp_parse] does with a
    code is its own business, [parse_option] has left [opts] and [debug]
    as they are found by the next call *)
Fixpoint parse_calls (calls : list (Z * option string * Cli.argp_state))
    (o : Cli.opts) (dbg : bool) : parsed :=
  match calls with
  | [] => Returns 0 o dbg
  | (key, arg, state) :: calls =>
      match parse_option key arg state o dbg with
      | Returns _ o dbg => parse_calls calls o dbg
      | Usage => Usage
      | NullArg => NullArg
      end
  end.

Section Main.

Context `{SymbolH} `{McountH} `{Platform}.

(** the [struct opts] the commands read, when [exename] and [filename]
    are not NULL *)
Definition command_opts (o : Cli.opts) : option opts :=
  exe ← Cli.exename o;
  name ← Cli.filename o;
  Some {| lib_path := Cli.lib_path o; filter := Cli.filter o;
          notrace := Cli.notrace o; exename := exe; filename := name;
          flat := negb (Cli.flat o =? 0); idx := Cli.idx o |}.

(** [main] from the [switch] on: [opts] and [debug] are as [argp_parse]
    left them.  [None]: a command is given a NULL [exename] or
    [filename] and hands it to a function that reads a string.
    [command_live] puts the name of its temporary file in [filename]
    before anything reads it. *)
Definition main_switch (args : list string) (o : Cli.opts) (w : world)
  : option (outcome (Z * world)) :=
  if Cli.mode o =? FTRACE_MODE_RECORD then
    o ← command_opts o;
    Some (Done (0, (command_record args o w).2))
  else if Cli.mode o =? FTRACE_MODE_REPLAY then
    o ← command_opts o;
    Some ('(_, w) ← command_replay o w; Done (0, w))
  else if Cli.mode o =? FTRACE_MODE_LIVE then
    exe ← Cli.exename o;
    Some ('(_, w) ← command_live args
                      {| lib_path := Cli.lib_path o; filter := Cli.filter o;
                         notrace := Cli.notrace o; exename := exe;
                         filename := default "" (Cli.filename o);
                         flat := negb (Cli.flat o =? 0); idx := Cli.idx o |} w;
          Done (0, w))
  else if Cli.mode o =? FTRACE_MODE_REPORT then
    Some (Done (0, (command_report
                      {| lib_path := Cli.lib_path o; filter := Cli.filter o;
                         notrace := Cli.notrace o;
                         exename := default "" (Cli.exename o);
                         filename := default "" (Cli.filename o);
                         flat := negb (Cli.flat o =? 0); idx := Cli.idx o |} w).2))
  else Some (Done (0, w)).

End Main.

(** ** Notions the statements use *)

Section Notions.

Context `{SymbolH} `{McountH} `{Platform}.

(** the records of a function entry and of a function exit *)
Definition entry_record (thread d parent child t : Z) : mcount_ret_stack :=
  {| tid := thread; depth := d; parent_ip := parent; child_ip := child;
     start_time := t; end_time := 0 |}.

Definition exit_record (thread d parent child t t' : Z) : mcount_ret_stack :=
  {| tid := thread; depth := d; parent_ip := parent; child_ip := child;
     start_time := t; end_time := t' |}.

(** what is left to read *)
Definition remaining (fp : FILE) : list byte := drop (fpos fp) (data fp).

(** the stream after [n] more bytes were read *)
Definition advance (fp : FILE) (n : nat) : FILE :=
  {| data := data fp; fpos := fpos fp + n |}.

(** bytes that pass the two tests of [open_data_file] *)
Definition valid_header (hdr : list byte) : Prop :=
  length hdr = header_size ∧ magic_ok hdr = true ∧
  header_version hdr = FTRACE_VERSION.

(** a library path in front of the old value of a variable *)
Definition prepended (lib_dir lib : string) (old : option string) : string :=
  match old with
  | Some old => lib_dir +:+ "/" +:+ lib +:+ ":" +:+ old
  | None => lib_dir +:+ "/" +:+ lib
  end.

(** the room an old value takes in [buf], with its colon *)
Definition old_length (old : option string) : nat :=
  from_option (λ v, 1 + String.length v)%nat 0%nat old.

(** the environment [setup_child_environ] leaves, from the two library
    lists and the two address lists it built *)
Definition child_environ (o : opts) (dbg : bool) (pre aud : string)
    (fl nt : option string) (env : gmap string string) : gmap string string :=
  let env := <["LD_AUDIT" := aud]> (<["LD_PRELOAD" := pre]> env) in
  let env := from_option (λ b, <["FTRACE_FILTER" := b]> env) env fl in
  let env := from_option (λ b, <["FTRACE_NOTRACE" := b]> env) env nt in
  let env := if decide (filename o = FTRACE_FILE_NAME) then env
             else <["FTRACE_FILE" := filename o]> env in
  if dbg then <["FTRACE_DEBUG" := "1"]> env else env.

(** the address list built for an option that may be absent *)
Definition addrlist_of (tab : symtab) (symlist : option string) (b : option string) : Prop :=
  match symlist with
  | Some l => ∃ buf, build_addrlist 4096 tab l = Done buf ∧ b = Some buf
  | None => b = None
  end.

(** the tokens the loop of [build_addrlist] goes through, from the token
    [fname] that [strtok] gave last, in at most [fuel] turns *)
Fixpoint tokens_from (fuel : nat) (fname : option string) (save : string)
  : list string :=
  match fname, fuel with
  | Some name, S fuel' =>
      name :: (let '(fname', save') := strtok None ",:" save in
               tokens_from fuel' fname' save')
  | _, _ => []
  end.

(** the names of a list given to -F or -N *)
Definition tokens (symlist : string) : list string :=
  let '(fname, save) := strtok (Some symlist) ",:" "" in
  tokens_from (S (String.length symlist)) fname save.

(** what a name adds to the address list: nothing when it has no symbol,
    otherwise its address, after a colon unless it is the first name *)
Definition addr_piece (tab : symtab) (first : bool) (name : string) : string :=
  match find_symname tab name with
  | Some s => CBuf.snprintf 64 ((if first then "" else ":") +:+ Fmt.alt_lx (sym_addr s))
  | None => ""
  end.

Fixpoint addr_pieces (tab : symtab) (first : bool) (names : list string) : string :=
  match names with
  | [] => ""
  | name :: names => addr_piece tab first name +:+ addr_pieces tab false names
  end.

(** the line of the flat output for a record, numbered [n] *)
Definition flat_line (tab : symtab) (n : Z) (r : mcount_ret_stack) : string :=
  if end_time r =? 0
  then flat_entry_line n r (flat_name tab (parent_ip r)) (flat_name tab (child_ip r))
  else flat_exit_line n r (flat_name tab (parent_ip r)) (flat_name tab (child_ip r)).

(** the world after the flat output of the records held by [chunks] *)
Definition flat_output (w : world) (chunks : list (list byte)) : world :=
  foldl (λ w c, printf (flat_line (table w) (count w) (decode_rstack c))
                  (set_count (count w + 1) w)) w chunks.

End Notions.

(** ** The graph output as a function of the records *)

Section GraphEvents.

Context `{SymbolH} `{McountH} `{Platform}.

(** What the graph output does with a list of records, the next record
    being at hand instead of being read and unread: the events, and
    whether the output stopped on an entry record with nothing behind
    it. *)
Fixpoint graph_events (tab : symtab) (rs : list mcount_ret_stack)
  : list event * bool :=
  match rs with
  | [] => ([], false)
  | r :: rest =>
      if end_time r =? 0 then
        match rest with
        | [] => ([Perror "error reading rstack"], true)
        | n :: rest' =>
            if bool_decide (depth n = depth r) && negb (end_time n =? 0)
            then
              let '(evs, failed) := graph_events tab rest' in
              (Printf (graph_leaf_line r (Fmt.sub_ulong (end_time n) (start_time r))
                         (graph_name tab (child_ip r))) :: evs, failed)
            else
              let '(evs, failed) := graph_events tab rest in
              (Printf (graph_entry_line r (graph_name tab (child_ip r))) :: evs, failed)
        end
      else
        let '(evs, failed) := graph_events tab rest in
        (Printf (graph_exit_line r (Fmt.sub_ulong (end_time r) (start_time r))
                   (graph_name tab (child_ip r))) :: evs, failed)
  end.

(** the world after some more events, nothing else changed *)
Definition logged (new : list event) (w : world) : world :=
  {| fs := fs w; environ := environ w; table := table w; debug := debug w;
     count := count w; log := log w ++ new |}.

(** the return code of the replay loop after these records *)
Definition graph_code (ret : Z) (rs : list mcount_ret_stack) (failed : bool) : Z :=
  if failed then -1 else if rs is [] then ret else 0.

(** the modes a command line can give *)
Definition mode_of_words (m : Z) : Prop :=
  m = FTRACE_MODE_INVALID ∨ m = FTRACE_MODE_RECORD ∨
  m = FTRACE_MODE_REPLAY ∨ m = FTRACE_MODE_LIVE.

End GraphEvents.

(** ** More notions *)

Section MoreNotions.

Context `{SymbolH} `{McountH} `{Platform}.

(** the variables [setup_child_environ] may set *)
Definition child_variables : list string :=
  [ "LD_PRELOAD"; "LD_AUDIT"; "FTRACE_FILTER"; "FTRACE_NOTRACE"; "FTRACE_FILE";
    "FTRACE_DEBUG" ].

(** the events that are output of the process *)
Definition is_output (e : event) : Prop :=
  match e with
  | Printf _ | Perror _ => True
  | _ => False
  end.

(** the process at the call of [fork] in [command_record], the symbol
    table [tab] being loaded *)
Definition before_fork (o : opts) (tab : symtab) (w : world) : world :=
  emit Fflush (set_table tab (backup_old_file o w)).

(** what a run of the replay loop leaves: the files, the environment,
    [debug] and the symbol table as they were, and more output *)
Definition replayed (w w' : world) : Prop :=
  fs w' = fs w ∧ environ w' = environ w ∧ debug w' = debug w ∧
  table w' = table w ∧
  ∃ new, log w' = log w ++ new ∧ Forall is_output new.

(** what every call of [parse_option] keeps true of [opts]: the mode is
    one a word can give, and a target is named only with a mode chosen *)
Definition parsed_opts (o : Cli.opts) : Prop :=
  mode_of_words (Cli.mode o) ∧
  (is_Some (Cli.exename o) → Cli.mode o ≠ FTRACE_MODE_INVALID).

End MoreNotions.

(** ** A concrete platform to run the model on *)

Module Sample.

(** Modelled from the spec: [symbol.c] is missing.  The table is the
    list of symbols in ascending order of address; a lookup by address
    takes the symbol with the greatest address not above the query and
    accepts it when the query lies inside [address, address + size), or
    is the address itself when the size is unknown (0); a lookup by
    name takes the first symbol of that name. *)
Definition floor_sym (tab : list sym) (ip : Z) : option sym :=
  foldl (λ best s, if sym_addr s <=? ip then Some s else best) None tab.

Definition find_by_address (tab : list sym) (ip : Z) : option sym :=
  s ← floor_sym tab ip;
  if (ip <? sym_addr s + sym_size s) || (ip =? sym_addr s) then Some s else None.

Definition find_by_name (tab : list sym) (name : string) : option sym :=
  list_find (λ s, sym_name s = name) tab ≫= λ '(_, s), Some s.

(** the symbols of the binaries of the examples: a file that is not
    empty is a binary built with -pg and holds [image]; an empty file
    is a binary built without it and holds [image] less [mcount];
    loading anything else fails *)
Definition image : list sym :=
  [ {| sym_name := "main"; sym_addr := 0x400100; sym_size := 0x40 |};
    {| sym_name := "foo"; sym_addr := 0x1000; sym_size := 0x10 |};
    {| sym_name := "bar"; sym_addr := 0x2000; sym_size := 0x5 |};
    {| sym_name := "mcount"; sym_addr := 0x400500; sym_size := 0 |} ].

Definition plain_image : list sym := take 3 image.

Definition addr_le (a b : sym) : Prop := sym_addr a ≤ sym_addr b.

#[export] Instance addr_le_dec a b : Decision (addr_le a b) := Z_le_dec _ _.

Definition by_address (tab : list sym) : list sym := merge_sort addr_le tab.

#[export] Instance symbols : SymbolH := {|
  symtab := list sym;
  no_symtab := [];
  load_symtab := λ fs exe,
    match fs !! exe with
    | Some (Regular []) => (0, by_address plain_image)
    | Some (Regular _) => (0, by_address image)
    | _ => (-1, [])
    end;
  find_symtab := find_by_address;
  find_symname := find_by_name;
|}.

(** little-endian integers *)
Definition le (bs : list byte) : Z :=
  foldr (λ b acc, Z.of_N (Byte.to_N b) + 256 * acc) 0 bs.

Fixpoint le_bytes (n : nat) (v : Z) : list byte :=
  match n with
  | O => []
  | S n' => default "000"%byte (Byte.of_N (Z.to_N (v mod 256))) :: le_bytes n' (v / 256)
  end.

Definition int32 (v : Z) : Z := if v <? 2 ^ 31 then v else v - 2 ^ 32.

Definition field (off len : nat) (bs : list byte) : Z := le (take len (drop off bs)).

(** Modelled from the spec: [mcount.h] is missing.  The fields of a
    record in the order the spec lists them ([thread_id], [depth],
    [parent_address], [child_address], [start_time], [end_time]), two
    [int] and four [unsigned long] of an LP64 platform, little endian;
    the header is the magic string followed by a 32-bit version.  The
    magic string, the version and the default file name are examples. *)
Definition decode (bs : list byte) : mcount_ret_stack :=
  {| tid := int32 (field 0 4 bs);
     depth := int32 (field 4 4 bs);
     parent_ip := field 8 8 bs;
     child_ip := field 16 8 bs;
     start_time := field 24 8 bs;
     end_time := field 32 8 bs |}.

Definition encode (r : mcount_ret_stack) : list byte :=
  le_bytes 4 (tid r) ++ le_bytes 4 (depth r) ++ le_bytes 8 (parent_ip r) ++
  le_bytes 8 (child_ip r) ++ le_bytes 8 (start_time r) ++ le_bytes 8 (end_time r).

Definition magic : list byte :=
  ["F"; "t"; "r"; "a"; "c"; "e"; "!"; "000"]%byte.

#[export] Instance layout : McountH := {|
  FTRACE_FILE_NAME := "ftrace.data";
  FTRACE_MAGIC_LEN := 8;
  FTRACE_MAGIC_STR := magic;
  FTRACE_VERSION := 1;
  header_size := 12;
  header_magic := take 8;
  header_version := field 8 4;
  rstack_size := 40;
  decode_rstack := decode;
  rstack_size_pos := Nat.lt_0_succ 39;
|}.

Definition header (version : Z) : list byte := magic ++ le_bytes 4 version.

(** the six records of the example run: main calls foo, foo calls bar *)
Definition enter (ip parent d t : Z) : mcount_ret_stack :=
  {| tid := 1234; depth := d; parent_ip := parent; child_ip := ip;
     start_time := t; end_time := 0 |}.
Definition leave (ip parent d t t' : Z) : mcount_ret_stack :=
  {| tid := 1234; depth := d; parent_ip := parent; child_ip := ip;
     start_time := t; end_time := t' |}.

Definition six : list mcount_ret_stack :=
  [ enter 0x400100 0x7000 0 100; enter 0x1000 0x400120 1 110;
    enter 0x2000 0x1008 2 120; leave 0x2000 0x1008 2 120 150;
    leave 0x1000 0x400120 1 110 170; leave 0x400100 0x7000 0 100 200 ].

Definition trace (rs : list mcount_ret_stack) : list byte :=
  header 1 ++ concat (encode <$> rs).

(** the child always runs to its end and leaves the six records in the
    file named by FTRACE_FILE, or in the default file *)
#[export] Instance platform : Platform := {|
  fork_ok := λ _, true;
  execv := λ env exe argv fs,
    match env with
    | Done env => Some (0, <[default "ftrace.data" (env !! "FTRACE_FILE") := Regular (trace six)]> fs)
    | _ => None
    end;
  mkstemp := λ _ fs, Some "/tmp/ftrace-live-a1b2c3";
  dladdr := λ ip, if ip =? 0x7000 then Some "__libc_start_main" else None;
  uninit_header := repeat "000"%byte 12;
|}.

Definition options : opts :=
  {| lib_path := None; filter := None; notrace := None; exename := "a.out";
     filename := "ftrace.data"; flat := false; idx := 1 |}.

Definition start (files : gmap string fnode) : world :=
  {| fs := files; environ := ∅; table := []; debug := false; count := 0; log := [] |}.

(** the files of the examples: a binary, and the trace of the six records *)
Definition six_files : gmap string fnode :=
  {[ "a.out" := Regular [ "127"; "E"; "L"; "F" ]%byte;
     "ftrace.data" := Regular (trace six) ]}.

Definition flat_options : opts :=
  {| lib_path := None; filter := None; notrace := None; exename := "a.out";
     filename := "ftrace.data"; flat := true; idx := 1 |}.

(** a binary built without -pg *)
Definition plain_files : gmap string fnode := {[ "plain" := Regular [] ]}.

Definition plain_options : opts :=
  {| lib_path := None; filter := None; notrace := None; exename := "plain";
     filename := "ftrace.data"; flat := false; idx := 1 |}.

End Sample.

(** ** Strings *)

Lemma string_length_app (a b : string) :
  String.length (a +:+ b) = (String.length a + String.length b)%nat.
Proof. induction a as [|c a IH]; simpl; [done | by rewrite IH]. Qed.

Lemma string_app_assoc (a b c : string) : (a +:+ b) +:+ c = a +:+ b +:+ c.
Proof.
  induction a as [|x a IH]; [done|].
  change (String x ((a +:+ b) +:+ c) = String x (a +:+ b +:+ c)). by f_equal.
Qed.

Lemma string_app_nil_r (a : string) : a +:+ "" = a.
Proof.
  induction a as [|x a IH]; [done|].
  change (String x (a +:+ "") = String x a). by f_equal.
Qed.

Lemma substring_whole (n : nat) (s : string) :
  (String.length s ≤ n)%nat → String.substring 0 n s = s.
Proof.
  revert n. induction s as [|c s IH]; intros [|n] Hn; simpl in *; try done; try lia.
  rewrite IH; [done | lia].
Qed.

Lemma snprintf_fits (size : nat) (text : string) :
  (String.length text < size)%nat → CBuf.snprintf size text = text.
Proof. intros Hlt. apply substring_whole. lia. Qed.

(** ** Tokens *)

Section Strtok.

Variable delim : string.

Lemma skip_delims_length s :
  (String.length (skip_delims delim s) ≤ String.length s)%nat.
Proof.
  induction s as [|c s IH]; simpl; [lia|].
  destruct (is_delim delim c); simpl; lia.
Qed.

Lemma split_token_length s t r :
  split_token delim s = (t, r) → s ≠ EmptyString →
  (String.length r < String.length s)%nat.
Proof.
  revert t r. induction s as [|c s IH]; intros t r Hs Hne; [done|].
  simpl in Hs. destruct (is_delim delim c).
  - inversion Hs; subst. simpl. lia.
  - destruct (split_token delim s) as [t' r'] eqn:E. inversion Hs; subst.
    destruct s as [|c' s'].
    + simpl in E. inversion E; subst. simpl. lia.
    + specialize (IH _ _ eq_refl ltac:(done)). simpl in *. lia.
Qed.

(** a call of [strtok] that finds a token leaves less to scan *)
Lemma strtok_length str save t r :
  strtok str delim save = (Some t, r) →
  (String.length r < String.length (default save str))%nat.
Proof.
  unfold strtok. intros Hs.
  pose proof (skip_delims_length (default save str)) as Hle.
  destruct (skip_delims delim (default save str)) as [|c s] eqn:E; [done|].
  destruct (split_token delim (String c s)) as [t' r'] eqn:E'.
  inversion Hs; subst.
  apply split_token_length in E'; [lia | done].
Qed.

(** a token is never empty and holds no delimiter *)
Lemma strtok_none str save r :
  strtok str delim save = (None, r) → r = EmptyString.
Proof.
  unfold strtok. destruct (skip_delims delim (default save str)); [by intros [= <-]|].
  by destruct (split_token delim _).
Qed.

End Strtok.

Section BuildAddrlistFacts.

Context `{SymbolH}.

(** the loop of [build_addrlist] ends within one turn per character
    left, plus one *)
Lemma build_addrlist_loop_fuel fuel size tab p fname save buf :
  (String.length save < fuel)%nat →
  build_addrlist_loop fuel size tab p fname save buf ≠ NoFuel.
Proof.
  revert p fname save buf.
  induction fuel as [|fuel IH]; intros p fname save buf Hlt; [lia|].
  destruct fname as [name|]; [|done]. simpl.
  destruct (match find_symname tab name with
            | Some s => _ | None => Done buf end) as [buf'| |] eqn:E;
    simpl; [|done|].
  - destruct (strtok None ",:" save) as [fname' save'] eqn:Et.
    destruct fname' as [t|].
    + apply IH. apply strtok_length in Et. simpl in Et. lia.
    + by destruct fuel.
  - destruct (find_symname tab name); [|done].
    unfold CBuf.strcat in E. by case_decide.
Qed.

Lemma build_addrlist_fuel size tab symlist :
  build_addrlist size tab symlist ≠ NoFuel.
Proof.
  unfold build_addrlist.
  destruct (strtok (Some symlist) ",:" "") as [fname save] eqn:Et.
  destruct fname as [t|]; [|done].
  apply build_addrlist_loop_fuel. apply strtok_length in Et. simpl in Et. lia.
Qed.

End BuildAddrlistFacts.

(** ** The address lists of the filters *)

Section AddressLists.

Context `{SymbolH}.

Lemma build_addrlist_loop_step fuel size tab p name save buf :
  build_addrlist_loop (S fuel) size tab p (Some name) save buf =
  (buf ← match find_symname tab name with
         | Some sym =>
             CBuf.strcat size buf
               (CBuf.snprintf 64 ((if p then "" else ":") +:+ Fmt.alt_lx (sym_addr sym)))
         | None => Done buf
         end;
   build_addrlist_loop fuel size tab false
     (strtok None ",:" save).1 (strtok None ",:" save).2 buf).
Proof. simpl. by destruct (strtok None ",:" save). Qed.

(** when the loop ends, what it added to [buf] is the pieces of the
    tokens, and only the first token of the list is handled as first *)
Lemma build_addrlist_loop_pieces fuel size tab p fname save buf out :
  build_addrlist_loop fuel size tab p fname save buf = Done out →
  out = buf +:+ addr_pieces tab p (tokens_from fuel fname save).
Proof.
  revert p fname save buf.
  induction fuel as [|fuel IH]; intros p fname save buf;
    (destruct fname as [name|]; simpl;
     [|intros [= <-]; by rewrite string_app_nil_r]); [done|].
  unfold addr_piece.
  destruct (find_symname tab name) as [sym|]; simpl.
  - unfold CBuf.strcat. case_decide; [|done]. simpl.
    destruct (strtok None ",:" save) as [fname' save'].
    intros Hout. apply IH in Hout. by rewrite Hout, string_app_assoc.
  - destruct (strtok None ",:" save) as [fname' save'].
    intros Hout. by apply IH in Hout.
Qed.

(** the address list is the pieces of the names, in order *)
Lemma build_addrlist_pieces size tab symlist out :
  build_addrlist size tab symlist = Done out →
  out = addr_pieces tab true (tokens symlist).
Proof.
  unfold build_addrlist, tokens.
  destruct (strtok (Some symlist) ",:" "") as [fname save].
  intros Hout. by apply build_addrlist_loop_pieces in Hout.
Qed.

(** and the loop does end so when what it builds fits [buf] *)
Lemma build_addrlist_loop_done fuel size tab p fname save buf :
  (is_Some fname → String.length save < fuel)%nat →
  (String.length (buf +:+ addr_pieces tab p (tokens_from fuel fname save)) < size)%nat →
  build_addrlist_loop fuel size tab p fname save buf =
    Done (buf +:+ addr_pieces tab p (tokens_from fuel fname save)).
Proof.
  revert p fname save buf.
  induction fuel as [|fuel IH]; intros p fname save buf Hfuel Hfit;
    (destruct fname as [name|]; simpl;
     [|by rewrite string_app_nil_r]).
  { specialize (Hfuel ltac:(done)). lia. }
  simpl in Hfit. unfold addr_piece in *.
  destruct (strtok None ",:" save) as [fname' save'] eqn:Et.
  assert (is_Some fname' → String.length save' < fuel)%nat as Hfuel'.
  { intros [t ->]. apply strtok_length in Et. simpl in Et.
    specialize (Hfuel ltac:(done)). lia. }
  destruct (find_symname tab name) as [sym|]; simpl.
  - rewrite <- string_app_assoc in Hfit.
    unfold CBuf.strcat. rewrite decide_True.
    2:{ rewrite string_length_app in Hfit. rewrite string_length_app in Hfit. lia. }
    simpl. rewrite IH by done. by rewrite string_app_assoc.
  - simpl in Hfit. by rewrite IH.
Qed.

Lemma build_addrlist_done size tab symlist :
  (String.length (addr_pieces tab true (tokens symlist)) < size)%nat →
  build_addrlist size tab symlist = Done (addr_pieces tab true (tokens symlist)).
Proof.
  unfold build_addrlist, tokens.
  destruct (strtok (Some symlist) ",:" "") as [fname save] eqn:Et.
  intros Hfit. rewrite build_addrlist_loop_done; [done| |done].
  intros [t ->]. apply strtok_length in Et. simpl in Et. lia.
Qed.

(** evaluate the calls of [strtok] and [strcat] on literal strings *)
Ltac run_strtok :=
  repeat match goal with
    | |- context [strtok ?a ?b ?c] =>
        let v := eval vm_compute in (strtok a b c) in
        change (strtok a b c) with v; cbn [fst snd]
    | |- context [CBuf.strcat ?a ?b ?c] =>
        let v := eval vm_compute in (CBuf.strcat a b c) in
        change (CBuf.strcat a b c) with v
    | |- context [String.length ?a] =>
        let v := eval vm_compute in (String.length a) in
        change (String.length a) with v
    end.

(** C3: with [foo] resolved to 0x1000 and [bar] unresolved, the list
    built from foo,bar (or foo:bar) is exactly 0x1000, with no separator
    after it and nothing for [bar]; the list built from bar,foo is
    :0x1000, because only the first token, resolved or not, is handled
    while [p] is still non-NULL. *)
Theorem build_addrlist_first_slot (tab : symtab) (s : sym) (sep : string) :
  find_symname tab "foo" = Some s →
  sym_addr s = 0x1000 →
  find_symname tab "bar" = None →
  sep = "," ∨ sep = ":" →
  build_addrlist 4096 tab ("foo" +:+ sep +:+ "bar") = Done "0x1000" ∧
  build_addrlist 4096 tab ("bar" +:+ sep +:+ "foo") = Done ":0x1000".
Proof.
  intros Hfoo Haddr Hbar [-> | ->]; split; unfold build_addrlist;
    repeat (run_strtok; rewrite ?build_addrlist_loop_step, ?Hfoo, ?Hbar, ?Haddr;
            cbn [mbind outcome_bind]);
    reflexivity.
Qed.

End AddressLists.

(** ** The environment of the child *)

Section ChildEnviron.

Context `{SymbolH} `{McountH}.

Lemma prepend_lib_done lib_dir lib old :
  (String.length (lib_dir +:+ "/" +:+ lib) < 4096)%nat →
  prepend_lib lib_dir lib old ≠ Overrun →
  prepend_lib lib_dir lib old = Done (prepended lib_dir lib old).
Proof.
  intros Hfit Hdef. unfold prepend_lib, prepended in *.
  rewrite snprintf_fits in * by done.
  destruct old as [old|]; [|done].
  unfold CBuf.strcat in *.
  case_decide; simpl in *; [|done].
  case_decide; [|done].
  by rewrite !string_app_assoc.
Qed.

(** unless a buffer is overrun, [setup_child_environ] ends, and with
    this environment *)
Lemma setup_child_environ_done o tab dbg env :
  let lib_dir := default "." (lib_path o) in
  (String.length lib_dir + 17 < 4096)%nat →
  setup_child_environ o tab dbg env ≠ Overrun →
  ∃ fl nt,
    addrlist_of tab (filter o) fl ∧ addrlist_of tab (notrace o) nt ∧
    setup_child_environ o tab dbg env =
      Done (child_environ o dbg
              (prepended lib_dir "libmcount.so" (env !! "LD_PRELOAD"))
              (prepended lib_dir "librtld-audit.so" (env !! "LD_AUDIT")) fl nt env).
Proof.
  intros lib_dir Hfit. unfold setup_child_environ. fold lib_dir.
  assert (Hp : (String.length (lib_dir +:+ "/" +:+ "libmcount.so") < 4096)%nat)
    by (rewrite string_length_app; simpl; lia).
  assert (Ha : (String.length (lib_dir +:+ "/" +:+ "librtld-audit.so") < 4096)%nat)
    by (rewrite string_length_app; simpl; lia).
  destruct (prepend_lib lib_dir "libmcount.so" (env !! "LD_PRELOAD")) as [pre| |] eqn:Epre;
    simpl; [|done|].
  2:{ unfold prepend_lib, CBuf.strcat in Epre.
      destruct (env !! "LD_PRELOAD"); repeat (case_decide; simpl in Epre); done. }
  rewrite prepend_lib_done in Epre by (done || congruence). injection Epre as <-.
  destruct (prepend_lib lib_dir "librtld-audit.so" (env !! "LD_AUDIT")) as [aud| |] eqn:Eaud;
    simpl; [|done|].
  2:{ unfold prepend_lib, CBuf.strcat in Eaud.
      destruct (env !! "LD_AUDIT"); repeat (case_decide; simpl in Eaud); done. }
  rewrite prepend_lib_done in Eaud by (done || congruence). injection Eaud as <-.
  intros Hdef.
  assert (Hfl : ∃ fl, addrlist_of tab (filter o) fl ∧
            ∀ e, match filter o with
                 | Some l => b ← build_addrlist 4096 tab l;
                             Done (setenv "FTRACE_FILTER" b e)
                 | None => Done e
                 end = Done (from_option (λ b, <["FTRACE_FILTER" := b]> e) e fl)).
  { destruct (filter o) as [l|]; [|by exists None].
    pose proof (build_addrlist_fuel 4096 tab l) as Hfuel.
    destruct (build_addrlist 4096 tab l) as [b| |] eqn:Eb; [|done|done].
    exists (Some b). split; [by exists b | done]. }
  destruct Hfl as (fl & Hfl & Efl). rewrite Efl in *. simpl in *.
  assert (Hnt : ∃ nt, addrlist_of tab (notrace o) nt ∧
            ∀ e, match notrace o with
                 | Some l => b ← build_addrlist 4096 tab l;
                             Done (setenv "FTRACE_NOTRACE" b e)
                 | None => Done e
                 end = Done (from_option (λ b, <["FTRACE_NOTRACE" := b]> e) e nt)).
  { destruct (notrace o) as [l|]; [|by exists None].
    pose proof (build_addrlist_fuel 4096 tab l) as Hfuel.
    destruct (build_addrlist 4096 tab l) as [b| |] eqn:Eb; [|done|done].
    exists (Some b). split; [by exists b | done]. }
  destruct Hnt as (nt & Hnt & Ent). rewrite Ent in *. simpl in *.
  by exists fl, nt.
Qed.

Lemma prepend_lib_fits lib_dir lib old :
  (String.length lib_dir + 1 + String.length lib + old_length old < 4096)%nat →
  prepend_lib lib_dir lib old ≠ Overrun.
Proof.
  intros Hfit. unfold prepend_lib.
  assert (String.length (lib_dir +:+ "/" +:+ lib)
          = String.length lib_dir + 1 + String.length lib)%nat as Hlen.
  { rewrite !string_length_app. simpl. lia. }
  rewrite snprintf_fits by lia.
  destruct old as [old|]; [|done]. unfold old_length in Hfit. simpl in Hfit.
  unfold CBuf.strcat. rewrite decide_True by (simpl; lia). simpl.
  rewrite decide_True; [done|].
  rewrite string_length_app. simpl. lia.
Qed.

(** no buffer is overrun when the two library lists and the two address
    lists are shorter than [buf] *)
Lemma setup_child_environ_fits o tab dbg env :
  let lib_dir := default "." (lib_path o) in
  (String.length lib_dir + 17 + old_length (env !! "LD_PRELOAD") < 4096)%nat →
  (String.length lib_dir + 17 + old_length (env !! "LD_AUDIT") < 4096)%nat →
  (∀ l, filter o = Some l →
        String.length (addr_pieces tab true (tokens l)) < 4096)%nat →
  (∀ l, notrace o = Some l →
        String.length (addr_pieces tab true (tokens l)) < 4096)%nat →
  setup_child_environ o tab dbg env ≠ Overrun.
Proof.
  intros lib_dir Hpre Haud Hfl Hnt. unfold setup_child_environ. fold lib_dir.
  pose proof (prepend_lib_fits lib_dir "libmcount.so" (env !! "LD_PRELOAD")) as Fpre.
  pose proof (prepend_lib_fits lib_dir "librtld-audit.so" (env !! "LD_AUDIT")) as Faud.
  simpl in Fpre, Faud.
  destruct (prepend_lib lib_dir "libmcount.so" _) as [pre| |]; simpl;
    [|exfalso; apply Fpre; [lia | done]|done].
  destruct (prepend_lib lib_dir "librtld-audit.so" _) as [aud| |]; simpl;
    [|exfalso; apply Faud; [lia | done]|done].
  destruct (filter o) as [l|]; simpl.
  - rewrite build_addrlist_done by (by apply Hfl). simpl.
    destruct (notrace o) as [l'|]; simpl; [|done].
    by rewrite build_addrlist_done by (by apply Hnt).
  - destruct (notrace o) as [l'|]; simpl; [|done].
    by rewrite build_addrlist_done by (by apply Hnt).
Qed.

End ChildEnviron.

Section ChildEnvironSet.

Context `{SymbolH} `{McountH}.

Ltac env_cases fl nt dbg o :=
  unfold child_environ;
  destruct fl, nt, dbg, (decide (filename o = FTRACE_FILE_NAME)); simpl;
  repeat (rewrite lookup_insert_ne by done); rewrite ?lookup_insert_eq.

Lemma child_environ_preload o dbg pre aud fl nt env :
  child_environ o dbg pre aud fl nt env !! "LD_PRELOAD" = Some pre.
Proof. env_cases fl nt dbg o; done. Qed.

Lemma child_environ_audit o dbg pre aud fl nt env :
  child_environ o dbg pre aud fl nt env !! "LD_AUDIT" = Some aud.
Proof. env_cases fl nt dbg o; done. Qed.

Lemma child_environ_filter o dbg pre aud fl nt env :
  child_environ o dbg pre aud fl nt env !! "FTRACE_FILTER" =
  from_option Some (env !! "FTRACE_FILTER") fl.
Proof. env_cases fl nt dbg o; done. Qed.

Lemma child_environ_notrace o dbg pre aud fl nt env :
  child_environ o dbg pre aud fl nt env !! "FTRACE_NOTRACE" =
  from_option Some (env !! "FTRACE_NOTRACE") nt.
Proof. env_cases fl nt dbg o; done. Qed.

Lemma child_environ_file o dbg pre aud fl nt env :
  child_environ o dbg pre aud fl nt env !! "FTRACE_FILE" =
  if decide (filename o = FTRACE_FILE_NAME) then env !! "FTRACE_FILE"
  else Some (filename o).
Proof. env_cases fl nt dbg o; done. Qed.

Lemma child_environ_debug o dbg pre aud fl nt env :
  child_environ o dbg pre aud fl nt env !! "FTRACE_DEBUG" =
  if dbg then Some "1" else env !! "FTRACE_DEBUG".
Proof. env_cases fl nt dbg o; done. Qed.

(** C5: the child gets LD_PRELOAD and LD_AUDIT with the interposition
    library first; an old value of the variable follows it after a
    colon, unchanged; without an old value the library path is the
    whole value.  The library directory is short enough for the path to
    fit [buf], and no [strcat] writes past the end of [buf]. *)
Theorem setup_child_environ_prepends (o : opts) (tab : symtab) (dbg : bool)
    (env : gmap string string) :
  let lib_dir := default "." (lib_path o) in
  (String.length lib_dir + 17 < 4096)%nat →
  setup_child_environ o tab dbg env ≠ Overrun →
  ∃ env', setup_child_environ o tab dbg env = Done env' ∧
    env' !! "LD_PRELOAD" =
      Some (match env !! "LD_PRELOAD" with
            | Some old => lib_dir +:+ "/libmcount.so" +:+ ":" +:+ old
            | None => lib_dir +:+ "/libmcount.so"
            end) ∧
    env' !! "LD_AUDIT" =
      Some (match env !! "LD_AUDIT" with
            | Some old => lib_dir +:+ "/librtld-audit.so" +:+ ":" +:+ old
            | None => lib_dir +:+ "/librtld-audit.so"
            end).
Proof.
  intros lib_dir Hfit Hdef.
  destruct (setup_child_environ_done o tab dbg env Hfit Hdef) as (fl & nt & _ & _ & ->).
  eexists; split; [done|].
  rewrite child_environ_preload, child_environ_audit. done.
Qed.

(** C6, as the code has it: FTRACE_FILTER and FTRACE_NOTRACE are set
    exactly when the option was given, to the address list built from
    it, empty or not; FTRACE_FILE is set exactly when the file name is
    not the default one; FTRACE_DEBUG is set exactly when debugging is
    on; a variable that is not set keeps the value it had. *)
Theorem setup_child_environ_optional (o : opts) (tab : symtab) (dbg : bool)
    (env : gmap string string) :
  (String.length (default "." (lib_path o)) + 17 < 4096)%nat →
  setup_child_environ o tab dbg env ≠ Overrun →
  ∃ env', setup_child_environ o tab dbg env = Done env' ∧
    match filter o with
    | Some symlist => ∃ buf, build_addrlist 4096 tab symlist = Done buf ∧
                             env' !! "FTRACE_FILTER" = Some buf
    | None => env' !! "FTRACE_FILTER" = env !! "FTRACE_FILTER"
    end ∧
    match notrace o with
    | Some symlist => ∃ buf, build_addrlist 4096 tab symlist = Done buf ∧
                             env' !! "FTRACE_NOTRACE" = Some buf
    | None => env' !! "FTRACE_NOTRACE" = env !! "FTRACE_NOTRACE"
    end ∧
    env' !! "FTRACE_FILE" =
      (if decide (filename o = FTRACE_FILE_NAME) then env !! "FTRACE_FILE"
       else Some (filename o)) ∧
    env' !! "FTRACE_DEBUG" = (if dbg then Some "1" else env !! "FTRACE_DEBUG").
Proof.
  intros Hfit Hdef.
  destruct (setup_child_environ_done o tab dbg env Hfit Hdef)
    as (fl & nt & Hfl & Hnt & ->).
  eexists; split; [done|].
  rewrite child_environ_filter, child_environ_notrace,
    child_environ_file, child_environ_debug.
  unfold addrlist_of in *.
  repeat split.
  - destruct (filter o); [destruct Hfl as (b & ? & ->); by exists b | by subst].
  - destruct (notrace o); [destruct Hnt as (b & ? & ->); by exists b | by subst].
Qed.

End ChildEnvironSet.

(** ** Reading the trace file *)

Section ReplayFacts.

Context `{SymbolH} `{McountH} `{Platform}.

Lemma fread_spec size fp :
  fread size fp =
    (take size (remaining fp),
     {| data := data fp; fpos := fpos fp + length (take size (remaining fp)) |}).
Proof. done. Qed.

Lemma remaining_advance fp n : remaining (advance fp n) = drop n (remaining fp).
Proof. unfold remaining. simpl. by rewrite drop_drop. Qed.

Lemma fread_rstack_inv fp r fp' :
  fread_rstack fp = (r, fp') →
  data fp' = data fp ∧
  match r with
  | Some _ => fpos fp' = (fpos fp + rstack_size)%nat ∧
              (fpos fp + rstack_size ≤ length (data fp))%nat
  | None => (fpos fp ≤ fpos fp')%nat
  end.
Proof.
  unfold fread_rstack. rewrite fread_spec. intros Hr.
  case_decide as Hlen; inversion Hr; subst; simpl; split; try done; [|lia].
  rewrite Hlen. split; [done|].
  rewrite length_take in Hlen. unfold remaining in Hlen.
  rewrite length_drop in Hlen. pose proof rstack_size_pos. lia.
Qed.

Lemma print_flat_rstack_inv r fp w :
  ∃ w', print_flat_rstack r fp w = (0, fp, w').
Proof. unfold print_flat_rstack. destruct (end_time r =? 0); by eexists. Qed.

Lemma print_graph_rstack_inv r fp w ret fp' w' :
  print_graph_rstack r fp w = (ret, fp', w') →
  data fp' = data fp ∧ (fpos fp ≤ fpos fp')%nat.
Proof.
  unfold print_graph_rstack.
  destruct (end_time r =? 0); [|by intros [= <- <- <-]].
  destruct (fread_rstack fp) as [[n|] fp1] eqn:E;
    apply fread_rstack_inv in E as [Hd Hp].
  - destruct (_ && _); intros [= <- <- <-]; simpl; [|done].
    split; [done | lia].
  - intros [= <- <- <-]. done.
Qed.

Lemma replay_loop_step fuel is_flat ret fp w :
  replay_loop (S fuel) is_flat ret fp w =
  match fread_rstack fp with
  | (None, fp) => Done (ret, fp, w)
  | (Some rstack, fp) =>
      let '(ret, fp, w) :=
        if is_flat then print_flat_rstack rstack fp w
        else print_graph_rstack rstack fp w in
      if negb (ret =? 0) then Done (ret, fp, w)
      else replay_loop fuel is_flat ret fp w
  end.
Proof. done. Qed.

(** the loop of [command_replay] ends: a turn moves the read position
    forward by a record at least *)
Lemma replay_loop_fuel fuel is_flat ret fp w :
  (length (data fp) - fpos fp < fuel)%nat →
  ∃ r, replay_loop fuel is_flat ret fp w = Done r.
Proof.
  revert ret fp w. induction fuel as [|fuel IH]; intros ret fp w Hlt; [lia|].
  rewrite replay_loop_step.
  destruct (fread_rstack fp) as [[r|] fp1] eqn:E; [|by eexists].
  apply fread_rstack_inv in E as [Hd [Hp Hle]].
  pose proof rstack_size_pos as Hpos.
  destruct is_flat.
  - destruct (print_flat_rstack_inv r fp1 w) as [w' ->]. simpl.
    apply IH. rewrite Hd, Hp. lia.
  - destruct (print_graph_rstack r fp1 w) as [[ret' fp2] w'] eqn:Eg.
    apply print_graph_rstack_inv in Eg as [Hd2 Hp2].
    destruct (negb (ret' =? 0)); [by eexists|].
    apply IH. rewrite Hd2, Hd. lia.
Qed.

(** [command_replay] always comes back *)
Lemma command_replay_total o w : ∃ r, command_replay o w = Done r.
Proof.
  unfold command_replay.
  destruct (open_data_file (filename o) (exename o) w) as [[fp|] w1]; [|by eexists].
  destruct (load_symtab (fs w1) (exename o)) as [ret tab].
  destruct (ret <? 0); [by eexists|].
  destruct (replay_loop_fuel (S (length (data fp))) (flat o) ret fp (set_table tab w1))
    as [[[ret' fp'] w'] ->]; [lia|].
  by eexists.
Qed.

(** and so does [command_live] *)
Lemma command_live_total argv o w : ∃ r, command_live argv o w = Done r.
Proof.
  unfold command_live.
  destruct (mkstemp _ (fs w)) as [template|]; [|by eexists].
  destruct (command_record _ _ _) as [rc w1].
  destruct (rc =? 0); [|by eexists].
  destruct (command_replay_total (with_filename template o) w1) as [[rc' w2] ->].
  by eexists.
Qed.

End ReplayFacts.

(** ** Opening the trace file *)

Section OpenDataFile.

Context `{SymbolH} `{McountH} `{Platform}.

Lemma magic_ok_false header i :
  (i < FTRACE_MAGIC_LEN)%nat →
  header_magic header !! i ≠ FTRACE_MAGIC_STR !! i →
  magic_ok header = false.
Proof.
  intros Hi Hne. unfold magic_ok. apply bool_decide_eq_false. intros Heq.
  apply Hne. rewrite <- (lookup_take_lt (header_magic header) FTRACE_MAGIC_LEN i) by done.
  rewrite Heq. by apply lookup_take_lt.
Qed.

(** a file that is long enough gives its first bytes as the header *)
Lemma fread_header_whole fp hdr body :
  fpos fp = 0%nat → data fp = hdr ++ body → length hdr = header_size →
  fread_header fp = (hdr, {| data := data fp; fpos := header_size |}).
Proof.
  intros Hpos Hdata Hlen. unfold fread_header. rewrite fread_spec.
  unfold remaining. rewrite Hpos, Hdata. simpl. rewrite !drop_0.
  rewrite take_app_length' by done. rewrite Hlen.
  rewrite drop_ge by (rewrite length_take; lia).
  by rewrite app_nil_r.
Qed.

(** C9: [open_data_file] gives a stream exactly when the file opens, the
    magic bytes of the header read from it are those of
    [FTRACE_MAGIC_STR] and its version is [FTRACE_VERSION]; a file that
    is not there gives the message that asks to record first, any other
    failure of [fopen] goes to [perror], a magic byte that differs at
    any position gives the message about the magic string, and another
    version gives the message about the version number. *)
Theorem open_data_file_checks (name exe : string) (w : world) :
  (fs w !! name = None →
     open_data_file name exe w = (None, printf (not_found_msg name exe) w)) ∧
  (∀ errno, fopen (fs w) name = inr errno →
     open_data_file name exe w =
       (None, if errno =? ENOENT then printf (not_found_msg name exe) w
              else perror "ftrace" w)) ∧
  (∀ fp, fopen (fs w) name = inl fp →
     let header := (fread_header fp).1 in
     (∀ i, (i < FTRACE_MAGIC_LEN)%nat →
           header_magic header !! i ≠ FTRACE_MAGIC_STR !! i →
           open_data_file name exe w =
             (None, printf ("invalid magic string found!" +:+ nl) w)) ∧
     (magic_ok header = true → header_version header ≠ FTRACE_VERSION →
           open_data_file name exe w =
             (None, printf ("invalid vergion number found!" +:+ nl) w)) ∧
     (magic_ok header = true → header_version header = FTRACE_VERSION →
           open_data_file name exe w = (Some (fread_header fp).2, w))) ∧
  (∀ fp' w', open_data_file name exe w = (Some fp', w') →
     ∃ fp, fopen (fs w) name = inl fp ∧ fp' = (fread_header fp).2 ∧ w' = w ∧
           magic_ok (fread_header fp).1 = true ∧
           header_version (fread_header fp).1 = FTRACE_VERSION).
Proof.
  unfold open_data_file. split; [|split; [|split]].
  - intros Hnone. unfold fopen. by rewrite Hnone.
  - intros errno ->. by destruct (errno =? ENOENT).
  - intros fp Hopen. rewrite Hopen. cbv zeta.
    destruct (fread_header fp) as [hdr fp1]. cbn [fst snd].
    split; [|split].
    + intros i Hi Hne. by rewrite (magic_ok_false hdr i).
    + intros -> Hv. apply Z.eqb_neq in Hv. by rewrite Hv.
    + intros -> Hv. apply Z.eqb_eq in Hv. by rewrite Hv.
  - intros fp' w'.
    destruct (fopen (fs w) name) as [fp|errno];
      [|destruct (errno =? ENOENT); discriminate].
    destruct (fread_header fp) as [hdr fp1] eqn:Eh.
    destruct (magic_ok hdr) eqn:Em; cbn [negb]; [|discriminate].
    destruct (header_version hdr =? FTRACE_VERSION) eqn:Ev; cbn [negb]; [|discriminate].
    intros [= <- <-]. apply Z.eqb_eq in Ev. exists fp. by rewrite Eh.
Qed.

(** a file that starts with a valid header opens, and the stream is
    then at its first record *)
Lemma open_data_file_valid name exe w hdr body :
  fs w !! name = Some (Regular (hdr ++ body)) → valid_header hdr →
  ∃ fp, open_data_file name exe w = (Some fp, w) ∧
        data fp = hdr ++ body ∧ remaining fp = body.
Proof.
  intros Hfile (Hlen & Hm & Hv). unfold open_data_file, fopen. rewrite Hfile.
  rewrite (fread_header_whole _ hdr body) by done.
  rewrite Hm. simpl. apply Z.eqb_eq in Hv. rewrite Hv. simpl.
  eexists; split; [done|]. split; [done|].
  unfold remaining. simpl. by rewrite drop_app_length' by done.
Qed.

End OpenDataFile.

(** ** The turns of the replay loop *)

Arguments fread_rstack : simpl never.
Arguments fgetpos : simpl never.
Arguments fsetpos : simpl never.
Arguments graph_entry_line : simpl never.
Arguments graph_leaf_line : simpl never.
Arguments graph_exit_line : simpl never.
Arguments graph_name : simpl never.

Section ReplayLoop.

Context `{SymbolH} `{McountH} `{Platform}.

Lemma fread_rstack_whole fp c rest :
  remaining fp = c ++ rest → length c = rstack_size →
  fread_rstack fp = (Some (decode_rstack c), advance fp rstack_size) ∧
  remaining (advance fp rstack_size) = rest.
Proof.
  intros Hrem Hlen. unfold fread_rstack. rewrite fread_spec, Hrem.
  rewrite take_app_length' by done. rewrite decide_True by done.
  rewrite Hlen. split; [done|].
  rewrite remaining_advance, Hrem. by rewrite drop_app_length' by done.
Qed.

Lemma fread_rstack_fragment fp :
  (length (remaining fp) < rstack_size)%nat →
  fread_rstack fp = (None, advance fp (length (remaining fp))).
Proof.
  intros Hlt. unfold fread_rstack. rewrite fread_spec.
  rewrite take_ge by lia. by rewrite decide_False by lia.
Qed.

(** more fuel does not change what the loop gives *)
Lemma replay_loop_more fuel fuel' is_flat ret fp w r :
  replay_loop fuel is_flat ret fp w = Done r → (fuel ≤ fuel')%nat →
  replay_loop fuel' is_flat ret fp w = Done r.
Proof.
  revert fuel' ret fp w. induction fuel as [|fuel IH]; intros fuel' ret fp w Hr Hle;
    [done|].
  destruct fuel' as [|fuel']; [lia|].
  rewrite replay_loop_step in *.
  destruct (fread_rstack fp) as [[rs|] fp1]; [|done].
  destruct (if is_flat then _ else _) as [[ret' fp2] w'].
  destruct (negb (ret' =? 0)); [done|].
  apply IH; [done | lia].
Qed.

Lemma print_flat_rstack_line r fp w :
  print_flat_rstack r fp w =
    (0, fp, printf (flat_line (table w) (count w) r) (set_count (count w + 1) w)).
Proof. unfold print_flat_rstack, flat_line. by destruct (end_time r =? 0). Qed.

Lemma flat_output_log w chunks :
  log (flat_output w chunks) =
    log w ++ imap (λ i c, Printf (flat_line (table w) (count w + Z.of_nat i)
                                    (decode_rstack c))) chunks ∧
  table (flat_output w chunks) = table w ∧
  fs (flat_output w chunks) = fs w ∧
  environ (flat_output w chunks) = environ w ∧
  count (flat_output w chunks) = count w + Z.of_nat (length chunks).
Proof.
  revert w. induction chunks as [|c chunks IH]; intros w; simpl.
  - rewrite app_nil_r. repeat split; lia.
  - destruct (IH (printf (flat_line (table w) (count w) (decode_rstack c))
                    (set_count (count w + 1) w))) as (Hl & Ht & Hf & He & Hc).
    unfold flat_output in *. rewrite Hl, Ht, Hf, He, Hc. simpl.
    rewrite <- app_assoc. simpl. rewrite Z.add_0_r.
    repeat split; [|lia].
    do 2 f_equal. apply imap_ext. intros i x _. simpl. do 2 f_equal. lia.
Qed.

(** the flat loop over whole records followed by less than a record *)
Lemma replay_loop_flat chunks frag fuel ret fp w :
  remaining fp = concat chunks ++ frag →
  Forall (λ c, length c = rstack_size) chunks →
  (length frag < rstack_size)%nat →
  (length chunks < fuel)%nat →
  ∃ fp', replay_loop fuel true ret fp w =
           Done (if chunks is [] then ret else 0, fp', flat_output w chunks).
Proof.
  revert fuel ret fp w.
  induction chunks as [|c chunks IH]; intros fuel ret fp w Hrem Hall Hfrag Hfuel;
    (destruct fuel as [|fuel]; [simpl in Hfuel; lia|]); rewrite replay_loop_step.
  - simpl in Hrem. rewrite fread_rstack_fragment by (rewrite Hrem; done).
    by eexists.
  - simpl in Hrem. rewrite <- app_assoc in Hrem.
    apply Forall_cons in Hall as [Hc Hall].
    destruct (fread_rstack_whole fp c _ Hrem Hc) as [-> Hrem'].
    rewrite print_flat_rstack_line. simpl.
    destruct (IH fuel 0 _ (printf (flat_line (table w) (count w) (decode_rstack c))
                             (set_count (count w + 1) w)) Hrem' Hall Hfrag)
      as [fp' ->]; [simpl in Hfuel; lia|].
    exists fp'. by destruct chunks.
Qed.

End ReplayLoop.

(** ** The flat output *)

Section FlatOutput.

Context `{SymbolH} `{McountH} `{Platform}.

Lemma length_concat_chunks (chunks : list (list byte)) :
  Forall (λ c, length c = rstack_size) chunks →
  (length chunks ≤ length (concat chunks))%nat.
Proof.
  pose proof rstack_size_pos as Hpos.
  induction 1 as [|c chunks Hc _ IH]; simpl; [lia|].
  rewrite length_app. lia.
Qed.

(** C8: the flat output has one line for each record of the file, in the
    order of the file, the line of the record at index [i] carrying the
    counter [count + i] (so 0, 1, 2, ... for the first replay of a
    process); the line of a record with [end_time] 0 has the arrow [->]
    and the start time, the line of any other record has the arrow [<-],
    the end time and the end time minus the start time. *)
Theorem flat_one_line_per_record (o : opts) (w : world) (hdr frag : list byte)
    (chunks : list (list byte)) (rc : Z) (tab : symtab) :
  flat o = true →
  fs w !! filename o = Some (Regular (hdr ++ concat chunks ++ frag)) →
  valid_header hdr →
  Forall (λ c, length c = rstack_size) chunks →
  (length frag < rstack_size)%nat →
  load_symtab (fs w) (exename o) = (rc, tab) →
  0 ≤ rc →
  ∃ w', command_replay o w = Done (if chunks is [] then rc else 0, w') ∧
    log w' = log w ++
      imap (λ i c, Printf (flat_line tab (count w + Z.of_nat i) (decode_rstack c)))
           chunks ∧
    length (drop (length (log w)) (log w')) = length chunks ∧
    (∀ n r, flat_line tab n r =
       if end_time r =? 0
       then "[" +:+ Fmt.d n +:+ "] " +:+ Fmt.d (tid r) +:+ "/" +:+ Fmt.d (depth r) +:+
            ": ip (" +:+ flat_name tab (parent_ip r) +:+ " -> " +:+
            flat_name tab (child_ip r) +:+ "), time (" +:+
            Fmt.lu (start_time r) +:+ ")" +:+ nl
       else "[" +:+ Fmt.d n +:+ "] " +:+ Fmt.d (tid r) +:+ "/" +:+ Fmt.d (depth r) +:+
            ": ip (" +:+ flat_name tab (parent_ip r) +:+ " <- " +:+
            flat_name tab (child_ip r) +:+ "), time (" +:+
            Fmt.lu (end_time r) +:+ ":" +:+
            Fmt.lu ((end_time r - start_time r) mod 2 ^ 64) +:+ ")" +:+ nl).
Proof.
  intros Hflat Hfile Hhdr Hall Hfrag Hload Hrc.
  unfold command_replay.
  destruct (open_data_file_valid (filename o) (exename o) w hdr _ Hfile Hhdr)
    as (fp & -> & Hdata & Hrem).
  rewrite Hload. rewrite (proj2 (Z.ltb_ge rc 0)) by done. rewrite Hflat.
  destruct (replay_loop_flat chunks frag (S (length (data fp))) rc fp
              (set_table tab w) Hrem Hall Hfrag) as [fp' ->].
  { rewrite Hdata, !length_app. pose proof (length_concat_chunks chunks Hall). lia. }
  simpl. eexists; split; [done|].
  destruct (flat_output_log (set_table tab w) chunks) as (Hl & _).
  simpl in *. rewrite Hl.
  split; [done|]. split; [|done].
  rewrite drop_app_length. by rewrite length_imap.
Qed.

End FlatOutput.

(** ** The graph output *)

Section GraphOutput.

Context `{SymbolH} `{McountH} `{Platform}.

(** the end of the stream, or less than a record, at the top of the
    loop: the loop ends with the return code it has *)
Lemma replay_loop_fragment fuel is_flat ret fp w :
  (length (remaining fp) < rstack_size)%nat →
  replay_loop (S fuel) is_flat ret fp w =
    Done (ret, advance fp (length (remaining fp)), w).
Proof. intros Hlt. rewrite replay_loop_step. by rewrite fread_rstack_fragment. Qed.

(** a record of a function exit *)
Lemma replay_loop_exit fuel ret fp w c rest :
  remaining fp = c ++ rest → length c = rstack_size →
  end_time (decode_rstack c) ≠ 0 →
  let r := decode_rstack c in
  replay_loop (S fuel) false ret fp w =
    replay_loop fuel false 0 (advance fp rstack_size)
      (printf (graph_exit_line r (Fmt.sub_ulong (end_time r) (start_time r))
                 (graph_name (table w) (child_ip r))) w) ∧
  remaining (advance fp rstack_size) = rest.
Proof.
  intros Hrem Hlen Hend r. rewrite replay_loop_step.
  destruct (fread_rstack_whole fp c rest Hrem Hlen) as [-> Hrem'].
  split; [|done].
  unfold print_graph_rstack. fold r.
  by rewrite (proj2 (Z.eqb_neq (end_time r) 0)) by done.
Qed.

Lemma print_graph_rstack_entry r fp w :
  end_time r = 0 →
  print_graph_rstack r fp w =
    match fread_rstack fp with
    | (None, fp') => (-1, fp', perror "error reading rstack" w)
    | (Some n, fp') =>
        if bool_decide (depth n = depth r) && negb (end_time n =? 0)
        then (0, fp', printf (graph_leaf_line r
                                (Fmt.sub_ulong (end_time n) (start_time r))
                                (graph_name (table w) (child_ip r))) w)
        else (0, fsetpos fp' (fgetpos fp),
              printf (graph_entry_line r (graph_name (table w) (child_ip r))) w)
    end.
Proof. intros Hend. unfold print_graph_rstack. by rewrite Hend. Qed.

(** a record of a function entry followed by nothing, or by less than a
    record *)
Lemma replay_loop_lone_entry fuel ret fp w c frag :
  remaining fp = c ++ frag → length c = rstack_size →
  (length frag < rstack_size)%nat →
  end_time (decode_rstack c) = 0 →
  replay_loop (S fuel) false ret fp w =
    Done (-1, advance (advance fp rstack_size) (length frag),
          perror "error reading rstack" w).
Proof.
  intros Hrem Hlen Hfrag Hend. rewrite replay_loop_step.
  destruct (fread_rstack_whole fp c frag Hrem Hlen) as [-> Hrem'].
  rewrite print_graph_rstack_entry by done.
  rewrite fread_rstack_fragment by (rewrite Hrem'; done).
  by rewrite Hrem'.
Qed.

(** a record of a function entry followed by the exit of the same depth *)
Lemma replay_loop_leaf fuel ret fp w c c' rest :
  remaining fp = c ++ c' ++ rest →
  length c = rstack_size → length c' = rstack_size →
  let r := decode_rstack c in
  let n := decode_rstack c' in
  end_time r = 0 → depth n = depth r → end_time n ≠ 0 →
  replay_loop (S fuel) false ret fp w =
    replay_loop fuel false 0 (advance (advance fp rstack_size) rstack_size)
      (printf (graph_leaf_line r (Fmt.sub_ulong (end_time n) (start_time r))
                 (graph_name (table w) (child_ip r))) w) ∧
  remaining (advance (advance fp rstack_size) rstack_size) = rest.
Proof.
  intros Hrem Hlen Hlen' r n Hend Hdepth Hend'. rewrite replay_loop_step.
  destruct (fread_rstack_whole fp c _ Hrem Hlen) as [-> Hrem1].
  destruct (fread_rstack_whole _ c' _ Hrem1 Hlen') as [Hread Hrem2].
  split; [|done].
  rewrite print_graph_rstack_entry, Hread by done. fold r n.
  rewrite bool_decide_eq_true_2 by done.
  by rewrite (proj2 (Z.eqb_neq (end_time n) 0)) by done.
Qed.

(** a record of a function entry followed by any other record: the
    stream goes back to that record *)
Lemma replay_loop_entry fuel ret fp w c c' rest :
  remaining fp = c ++ c' ++ rest →
  length c = rstack_size → length c' = rstack_size →
  let r := decode_rstack c in
  let n := decode_rstack c' in
  end_time r = 0 → depth n ≠ depth r ∨ end_time n = 0 →
  replay_loop (S fuel) false ret fp w =
    replay_loop fuel false 0 (advance fp rstack_size)
      (printf (graph_entry_line r (graph_name (table w) (child_ip r))) w) ∧
  remaining (advance fp rstack_size) = c' ++ rest.
Proof.
  intros Hrem Hlen Hlen' r n Hend Hnext. rewrite replay_loop_step.
  destruct (fread_rstack_whole fp c _ Hrem Hlen) as [-> Hrem1].
  destruct (fread_rstack_whole _ c' _ Hrem1 Hlen') as [Hread _].
  split; [|done].
  rewrite print_graph_rstack_entry, Hread by done. fold r n.
  assert (bool_decide (depth n = depth r) && negb (end_time n =? 0) = false) as ->.
  { destruct Hnext as [Hd | He].
    - by rewrite bool_decide_eq_false_2.
    - rewrite He. simpl. by rewrite andb_false_r. }
  done.
Qed.

(** a file that ends in the middle of its first record replays to
    nothing, without an error *)
Lemma command_replay_fragment o w hdr frag rc tab :
  fs w !! filename o = Some (Regular (hdr ++ frag)) →
  valid_header hdr →
  (length frag < rstack_size)%nat →
  load_symtab (fs w) (exename o) = (rc, tab) →
  0 ≤ rc →
  command_replay o w = Done (rc, set_table no_symtab (set_table tab w)).
Proof.
  intros Hfile Hhdr Hfrag Hload Hrc. unfold command_replay.
  destruct (open_data_file_valid (filename o) (exename o) w hdr _ Hfile Hhdr)
    as (fp & -> & Hdata & Hrem).
  rewrite Hload. rewrite (proj2 (Z.ltb_ge rc 0)) by done.
  by rewrite replay_loop_fragment by (rewrite Hrem; done).
Qed.

(** and a file that ends after an entry record stops the graph output
    with -1 *)
Lemma command_replay_lone_entry o w hdr c frag rc tab :
  flat o = false →
  fs w !! filename o = Some (Regular (hdr ++ c ++ frag)) →
  valid_header hdr →
  length c = rstack_size →
  (length frag < rstack_size)%nat →
  end_time (decode_rstack c) = 0 →
  load_symtab (fs w) (exename o) = (rc, tab) →
  0 ≤ rc →
  command_replay o w =
    Done (-1, set_table no_symtab (perror "error reading rstack" (set_table tab w))).
Proof.
  intros Hflat Hfile Hhdr Hlen Hfrag Hend Hload Hrc. unfold command_replay.
  destruct (open_data_file_valid (filename o) (exename o) w hdr _ Hfile Hhdr)
    as (fp & -> & Hdata & Hrem).
  rewrite Hload. rewrite (proj2 (Z.ltb_ge rc 0)) by done. rewrite Hflat.
  by rewrite (replay_loop_lone_entry _ _ _ _ c frag) by done.
Qed.

(** C2: at the top of the loop, a stream that holds less than a record
    ends the loop with the return code and the output it has, without
    any message; in the graph output, an entry record followed by less
    than a record ends the loop with -1 after [perror].  So a trace file
    cut in its first record replays to nothing and [command_replay]
    returns what [load_symtab] returned, and a trace file cut after a
    first entry record makes [command_replay] return -1. *)
Theorem replay_loop_truncated (fuel : nat) (ret : Z) (fp : FILE) (w : world) :
  (∀ is_flat,
     (length (remaining fp) < rstack_size)%nat →
     ∃ fp', replay_loop (S fuel) is_flat ret fp w = Done (ret, fp', w)) ∧
  (∀ c frag,
     remaining fp = c ++ frag → length c = rstack_size →
     (length frag < rstack_size)%nat →
     end_time (decode_rstack c) = 0 →
     ∃ fp', replay_loop (S fuel) false ret fp w =
              Done (-1, fp', perror "error reading rstack" w)) ∧
  (∀ o hdr frag rc tab,
     fs w !! filename o = Some (Regular (hdr ++ frag)) →
     valid_header hdr →
     (length frag < rstack_size)%nat →
     load_symtab (fs w) (exename o) = (rc, tab) →
     0 ≤ rc →
     command_replay o w = Done (rc, set_table no_symtab (set_table tab w))) ∧
  (∀ o hdr c frag rc tab,
     flat o = false →
     fs w !! filename o = Some (Regular (hdr ++ c ++ frag)) →
     valid_header hdr →
     length c = rstack_size →
     (length frag < rstack_size)%nat →
     end_time (decode_rstack c) = 0 →
     load_symtab (fs w) (exename o) = (rc, tab) →
     0 ≤ rc →
     command_replay o w =
       Done (-1, set_table no_symtab (perror "error reading rstack" (set_table tab w)))).
Proof.
  split; [|split; [|split]].
  - intros is_flat Hlt. rewrite replay_loop_fragment by done. by eexists.
  - intros c frag Hrem Hlen Hfrag Hend.
    rewrite (replay_loop_lone_entry _ _ _ _ c frag) by done. by eexists.
  - intros. by eapply command_replay_fragment.
  - intros. by eapply command_replay_lone_entry.
Qed.

Lemma sub_ulong_exact a b :
  0 ≤ b ≤ a → a < 2 ^ 64 → Fmt.sub_ulong a b = a - b.
Proof. intros Hab Ha. unfold Fmt.sub_ulong, Fmt.two64. apply Z.mod_small. lia. Qed.

(** C1, as the code has it: the six records of main calling foo
    calling bar give five lines, not four: the opening line of main,
    the opening line of foo, one line for bar with the time t3 - t2,
    the closing line of foo with the time t4 - t1 and the closing line
    of main with the time t5 - t0. *)
Theorem graph_collapses_leaf (o : opts) (w : world) (hdr c0 c1 c2 c3 c4 c5 : list byte)
    (rc : Z) (tab : symtab)
    (thread d0 d1 d2 p0 p1 p2 main foo bar t0 t1 t2 t3 t4 t5 : Z) :
  flat o = false →
  fs w !! filename o = Some (Regular (hdr ++ c0 ++ c1 ++ c2 ++ c3 ++ c4 ++ c5)) →
  valid_header hdr →
  load_symtab (fs w) (exename o) = (rc, tab) →
  0 ≤ rc →
  Forall (λ c, length c = rstack_size) [c0; c1; c2; c3; c4; c5] →
  decode_rstack c0 = entry_record thread d0 p0 main t0 →
  decode_rstack c1 = entry_record thread d1 p1 foo t1 →
  decode_rstack c2 = entry_record thread d2 p2 bar t2 →
  decode_rstack c3 = exit_record thread d2 p2 bar t2 t3 →
  decode_rstack c4 = exit_record thread d1 p1 foo t1 t4 →
  decode_rstack c5 = exit_record thread d0 p0 main t0 t5 →
  0 ≤ t0 ≤ t1 → t1 ≤ t2 → t2 ≤ t3 → 0 < t3 → t3 ≤ t4 → t4 ≤ t5 → t5 < 2 ^ 64 →
  ∃ w', command_replay o w = Done (0, w') ∧
    log w' = log w ++
      [ Printf (graph_entry_line (entry_record thread d0 p0 main t0) (graph_name tab main));
        Printf (graph_entry_line (entry_record thread d1 p1 foo t1) (graph_name tab foo));
        Printf (graph_leaf_line (entry_record thread d2 p2 bar t2) (t3 - t2)
                  (graph_name tab bar));
        Printf (graph_exit_line (exit_record thread d1 p1 foo t1 t4) (t4 - t1)
                  (graph_name tab foo));
        Printf (graph_exit_line (exit_record thread d0 p0 main t0 t5) (t5 - t0)
                  (graph_name tab main)) ] ∧
    length (drop (length (log w)) (log w')) = 5%nat.
Proof.
  intros Hflat Hfile Hhdr Hload Hrc Hall E0 E1 E2 E3 E4 E5 H01 H12 H23 H3 H34 H45 H5.
  apply Forall_cons in Hall as [L0 Hall]. apply Forall_cons in Hall as [L1 Hall].
  apply Forall_cons in Hall as [L2 Hall]. apply Forall_cons in Hall as [L3 Hall].
  apply Forall_cons in Hall as [L4 Hall]. apply Forall_cons in Hall as [L5 _].
  unfold command_replay.
  destruct (open_data_file_valid (filename o) (exename o) w hdr _ Hfile Hhdr)
    as (fp & -> & Hdata & Hrem).
  rewrite Hload. rewrite (proj2 (Z.ltb_ge rc 0)) by done. rewrite Hflat.
  pose proof rstack_size_pos as Hpos.
  set (w1 := set_table tab w).
  assert (∃ fp' w', replay_loop 6 false rc fp w1 = Done (0, fp', w') ∧
            log w' = log w ++
              [ Printf (graph_entry_line (entry_record thread d0 p0 main t0)
                          (graph_name tab main));
                Printf (graph_entry_line (entry_record thread d1 p1 foo t1)
                          (graph_name tab foo));
                Printf (graph_leaf_line (entry_record thread d2 p2 bar t2) (t3 - t2)
                          (graph_name tab bar));
                Printf (graph_exit_line (exit_record thread d1 p1 foo t1 t4) (t4 - t1)
                          (graph_name tab foo));
                Printf (graph_exit_line (exit_record thread d0 p0 main t0 t5) (t5 - t0)
                          (graph_name tab main)) ])
    as (fp' & w' & Hloop & Hlog).
  { destruct (replay_loop_entry 5 rc fp w1 c0 c1 _ Hrem L0 L1) as [-> Hrem1];
      [by rewrite E0 | right; by rewrite E1 |].
    destruct (replay_loop_entry 4 0 _ (printf (graph_entry_line (decode_rstack c0)
                (graph_name (table w1) (child_ip (decode_rstack c0)))) w1)
                c1 c2 _ Hrem1 L1 L2) as [-> Hrem2];
      [by rewrite E1 | right; by rewrite E2 |].
    match goal with |- context [replay_loop 4 false 0 ?f ?v] =>
      destruct (replay_loop_leaf 3 0 f v c2 c3 _ Hrem2 L2 L3) as [-> Hrem3];
        [by rewrite E2 | by rewrite E2, E3 | rewrite E3; simpl; lia |] end.
    match goal with |- context [replay_loop 3 false 0 ?f ?v] =>
      destruct (replay_loop_exit 2 0 f v c4 c5 Hrem3 L4) as [-> Hrem4];
        [rewrite E4; simpl; lia |] end.
    rewrite <- (app_nil_r c5) in Hrem4.
    match goal with |- context [replay_loop 2 false 0 ?f ?v] =>
      destruct (replay_loop_exit 1 0 f v c5 [] Hrem4 L5) as [-> Hrem5];
        [rewrite E5; simpl; lia |] end.
    rewrite replay_loop_fragment by (rewrite Hrem5; simpl; lia).
    do 2 eexists. split; [done|].
    rewrite E0, E1, E2, E3, E4, E5. simpl.
    rewrite !sub_ulong_exact by lia.
    rewrite <- !app_assoc. done. }
  rewrite (replay_loop_more 6 _ _ _ _ _ _ Hloop).
  2:{ rewrite Hdata, !length_app. lia. }
  simpl. exists (set_table no_symtab w'). split; [done|]. simpl.
  rewrite Hlog. split; [done|]. by rewrite drop_app_length.
Qed.

End GraphOutput.

(** ** Names *)

Section Names.

Context `{SymbolH} `{McountH} `{Platform}.

(** the flat output asks [dladdr] when the table has no symbol, and
    says "unknown" when [dladdr] has no name either *)
Lemma flat_name_fallback tab ip :
  find_symtab tab ip = None →
  flat_name tab ip = match dladdr ip with Some name => name | None => "unknown" end.
Proof. intros Hnone. unfold flat_name. by rewrite Hnone. Qed.

(** the graph output says "unknown" as soon as the table has no symbol,
    whatever [dladdr] knows *)
Lemma graph_name_unknown tab ip :
  find_symtab tab ip = None → graph_name tab ip = "unknown".
Proof. intros Hnone. unfold graph_name. by rewrite Hnone. Qed.

End Names.

(** ** record and live *)

Section Record.

Context `{SymbolH} `{McountH} `{Platform}.

Lemma backup_old_file_log o w :
  ∃ new, log (backup_old_file o w) = log w ++ new ∧ Fork ∉ new.
Proof.
  unfold backup_old_file, rename. case_decide.
  - exists [Rename (filename o) (CBuf.snprintf 512 (filename o +:+ ".old"))].
    split; [by destruct (fs _ !! _)|].
    apply not_elem_of_cons. split; [done | apply not_elem_of_nil].
  - exists []. split; [by rewrite app_nil_r | apply not_elem_of_nil].
Qed.

(** C7: when the symbol table of the target loads and has no symbol
    [mcount], [command_record] prints the message and returns -1, and
    nothing it did since it was called is a [fork]. *)
Theorem command_record_needs_mcount (argv : list string) (o : opts) (w : world)
    (rc : Z) (tab : symtab) :
  load_symtab (fs (backup_old_file o w)) (exename o) = (rc, tab) →
  0 ≤ rc →
  find_symname tab "mcount" = None →
  ∃ w' new,
    command_record argv o w = (-1, w') ∧
    log w' = log w ++ new ∧
    last new = Some (Printf (mcount_msg "mcount" (exename o))) ∧
    (Fork ∉ new) ∧
    fs w' = fs (backup_old_file o w).
Proof.
  intros Hload Hrc Hnone. unfold command_record.
  rewrite Hload. rewrite (proj2 (Z.ltb_ge rc 0)) by done. simpl. rewrite Hnone.
  destruct (backup_old_file_log o w) as (new & Hlog & Hfork).
  eexists _, (new ++ [Printf (mcount_msg "mcount" (exename o))]).
  split; [done|]. simpl. rewrite Hlog, <- app_assoc.
  split; [done|]. split; [by rewrite last_snoc|]. split; [|done].
  apply not_elem_of_app. split; [done|].
  apply not_elem_of_cons. split; [done | apply not_elem_of_nil].
Qed.

(** [command_record] calls [fork] only after it found [mcount] *)
Lemma command_record_fork argv o w :
  Fork ∈ drop (length (log w)) (log (command_record argv o w).2) →
  is_Some (find_symname (load_symtab (fs (backup_old_file o w)) (exename o)).2 "mcount").
Proof.
  unfold command_record.
  destruct (backup_old_file_log o w) as (new & Hlog & Hfork).
  destruct (load_symtab _ _) as [rc tab]. simpl.
  destruct (rc <? 0).
  { simpl. rewrite Hlog, drop_app_length. done. }
  destruct (find_symname tab "mcount"); [done|].
  simpl. rewrite Hlog, <- app_assoc, drop_app_length.
  intros [Hin | Hin]%elem_of_app; [done|].
  by apply list_elem_of_singleton in Hin.
Qed.

(** C10: once [mkstemp] made the temporary file, [command_live] records
    into it, replays it exactly when recording returned 0, unlinks it
    in both cases, and returns 0. *)
Theorem command_live_flow (argv : list string) (o : opts) (w : world)
    (template : string) :
  mkstemp "/tmp/ftrace-live-XXXXXX" (fs w) = Some template →
  let o' := with_filename template o in
  let w0 := emit (Mkstemp template) (set_fs (<[template := Regular []]> (fs w)) w) in
  let rc := (command_record argv o' w0).1 in
  let w1 := (command_record argv o' w0).2 in
  filename o' = template ∧
  ∃ w2 w',
    (if rc =? 0 then ∃ rc', command_replay o' w1 = Done (rc', w2) else w2 = w1) ∧
    command_live argv o w = Done (0, w') ∧
    w' = emit (Unlink template) (set_fs (delete template (fs w2)) w2) ∧
    fs w' !! template = None ∧
    last (log w') = Some (Unlink template).
Proof.
  intros Hmk o' w0 rc w1. split; [done|].
  unfold command_live. rewrite Hmk. fold o' w0.
  subst rc w1. destruct (command_record argv o' w0) as [rc w1]. simpl.
  destruct (rc =? 0).
  - destruct (command_replay_total o' w1) as [[rc' w2] E].
    exists w2. eexists. split; [by exists rc'|]. rewrite E. simpl.
    split; [done|]. split; [done|]. simpl.
    split; [by rewrite lookup_delete_eq | by rewrite last_snoc].
  - exists w1. eexists. split; [done|]. simpl.
    split; [done|]. split; [done|]. simpl.
    split; [by rewrite lookup_delete_eq | by rewrite last_snoc].
Qed.

End Record.

(** ** The graph output, record by record *)

Arguments replay_loop : simpl never.

Section GraphRecords.

Context `{SymbolH} `{McountH} `{Platform}.

Lemma logged_nil w : logged [] w = w.
Proof. destruct w. unfold logged. simpl. by rewrite app_nil_r. Qed.

Lemma logged_emit e new w : logged new (emit e w) = logged (e :: new) w.
Proof. unfold logged, emit. simpl. by rewrite <- app_assoc. Qed.

Lemma graph_code_zero rs failed :
  graph_code 0 rs failed = if failed then -1 else 0.
Proof. unfold graph_code. destruct failed; [done|]. by destruct rs. Qed.

(** the four cases of [graph_events] *)
Lemma graph_events_exit tab r rest :
  end_time r ≠ 0 →
  graph_events tab (r :: rest) =
    (Printf (graph_exit_line r (Fmt.sub_ulong (end_time r) (start_time r))
               (graph_name tab (child_ip r))) :: (graph_events tab rest).1,
     (graph_events tab rest).2).
Proof.
  intros He. cbn [graph_events]. rewrite (proj2 (Z.eqb_neq _ _) He).
  by destruct (graph_events tab rest).
Qed.

Lemma graph_events_lone tab r :
  end_time r = 0 → graph_events tab [r] = ([Perror "error reading rstack"], true).
Proof. intros He. cbn [graph_events]. by rewrite He. Qed.

Lemma graph_events_leaf tab r n rest :
  end_time r = 0 → depth n = depth r → end_time n ≠ 0 →
  graph_events tab (r :: n :: rest) =
    (Printf (graph_leaf_line r (Fmt.sub_ulong (end_time n) (start_time r))
               (graph_name tab (child_ip r))) :: (graph_events tab rest).1,
     (graph_events tab rest).2).
Proof.
  intros He Hd Hn. cbn [graph_events]. rewrite He.
  change (0 =? 0) with true. cbv iota.
  rewrite bool_decide_eq_true_2 by done.
  rewrite (proj2 (Z.eqb_neq _ _) Hn). cbn [negb andb].
  by destruct (graph_events tab rest).
Qed.

Lemma graph_events_entry tab r n rest :
  end_time r = 0 → depth n ≠ depth r ∨ end_time n = 0 →
  graph_events tab (r :: n :: rest) =
    (Printf (graph_entry_line r (graph_name tab (child_ip r)))
       :: (graph_events tab (n :: rest)).1,
     (graph_events tab (n :: rest)).2).
Proof.
  intros He Hnext.
  assert (bool_decide (depth n = depth r) && negb (end_time n =? 0) = false) as Hb.
  { destruct Hnext as [Hd | Hn].
    - by rewrite bool_decide_eq_false_2.
    - rewrite Hn. change (0 =? 0) with true. by rewrite andb_false_r. }
  change (graph_events tab (r :: n :: rest)) with
    (if end_time r =? 0 then
       if bool_decide (depth n = depth r) && negb (end_time n =? 0)
       then
         let '(evs, failed) := graph_events tab rest in
         (Printf (graph_leaf_line r (Fmt.sub_ulong (end_time n) (start_time r))
                    (graph_name tab (child_ip r))) :: evs, failed)
       else
         let '(evs, failed) := graph_events tab (n :: rest) in
         (Printf (graph_entry_line r (graph_name tab (child_ip r))) :: evs, failed)
     else
       let '(evs, failed) := graph_events tab (n :: rest) in
       (Printf (graph_exit_line r (Fmt.sub_ulong (end_time r) (start_time r))
                  (graph_name tab (child_ip r))) :: evs, failed)).
  rewrite He, Hb. change (0 =? 0) with true. cbv iota.
  by destruct (graph_events tab (n :: rest)).
Qed.

(** the loop of [command_replay] in the graph output does to the stream
    what [graph_events] does to the list of the records *)
Lemma replay_loop_graph n :
  ∀ chunks frag fuel ret fp w,
    (length chunks ≤ n)%nat →
    remaining fp = concat chunks ++ frag →
    Forall (λ c, length c = rstack_size) chunks →
    (length frag < rstack_size)%nat →
    (length chunks < fuel)%nat →
    ∃ fp', replay_loop fuel false ret fp w =
      Done (graph_code ret (decode_rstack <$> chunks)
              (graph_events (table w) (decode_rstack <$> chunks)).2,
            fp',
            logged (graph_events (table w) (decode_rstack <$> chunks)).1 w).
Proof.
  induction n as [|n IH]; intros chunks frag fuel ret fp w Hn Hrem Hall Hfrag Hfuel;
    (destruct fuel as [|fuel]; [lia|]).
  - destruct chunks; [|simpl in Hn; lia]. simpl in Hrem.
    rewrite replay_loop_fragment by (rewrite Hrem; done).
    cbn. rewrite logged_nil. by eexists.
  - destruct chunks as [|c chunks].
    { simpl in Hrem. rewrite replay_loop_fragment by (rewrite Hrem; done).
      cbn. rewrite logged_nil. by eexists. }
    apply Forall_cons in Hall as [Hc Hall].
    simpl in Hrem, Hn, Hfuel. rewrite <- app_assoc in Hrem.
    rewrite fmap_cons.
    destruct (decide (end_time (decode_rstack c) = 0)) as [Eend|Eend].
    + destruct chunks as [|c' chunks].
      { simpl in Hrem. rewrite (replay_loop_lone_entry _ _ _ _ c frag) by done.
        cbn [fmap list_fmap]. rewrite graph_events_lone by done. by eexists. }
      apply Forall_cons in Hall as [Hc' Hall].
      simpl in Hrem, Hn, Hfuel. rewrite <- app_assoc in Hrem.
      rewrite fmap_cons.
      destruct (decide (depth (decode_rstack c') = depth (decode_rstack c)
                        ∧ end_time (decode_rstack c') ≠ 0)) as [[Hd He]|Hnot].
      * destruct (replay_loop_leaf fuel ret fp w c c' _ Hrem Hc Hc' Eend Hd He)
          as [-> Hrem'].
        destruct (IH chunks frag fuel 0 _
                    (printf (graph_leaf_line (decode_rstack c)
                               (Fmt.sub_ulong (end_time (decode_rstack c'))
                                  (start_time (decode_rstack c)))
                               (graph_name (table w) (child_ip (decode_rstack c)))) w)
                    ltac:(lia) Hrem' Hall Hfrag ltac:(lia)) as [fp' ->].
        rewrite graph_events_leaf by done. cbn [fst snd].
        change (table (printf _ w)) with (table w).
        rewrite graph_code_zero. unfold printf. rewrite logged_emit.
        eexists. done.
      * assert (depth (decode_rstack c') ≠ depth (decode_rstack c)
                ∨ end_time (decode_rstack c') = 0) as Hnext.
        { destruct (decide (depth (decode_rstack c') = depth (decode_rstack c)));
            [|by left].
          destruct (decide (end_time (decode_rstack c') = 0)); [by right|].
          by destruct Hnot. }
        destruct (replay_loop_entry fuel ret fp w c c' _ Hrem Hc Hc' Eend Hnext)
          as [-> Hrem'].
        destruct (IH (c' :: chunks) frag fuel 0 (advance fp rstack_size)
                    (printf (graph_entry_line (decode_rstack c)
                               (graph_name (table w) (child_ip (decode_rstack c)))) w)
                    ltac:(simpl; lia)) as [fp' ->].
        { simpl. by rewrite <- app_assoc. }
        { by apply Forall_cons. }
        { done. }
        { simpl. lia. }
        rewrite fmap_cons. rewrite (graph_events_entry _ (decode_rstack c)) by done.
        cbn [fst snd]. change (table (printf _ w)) with (table w).
        rewrite graph_code_zero. unfold printf. rewrite logged_emit.
        eexists. done.
    + destruct (replay_loop_exit fuel ret fp w c _ Hrem Hc Eend) as [-> Hrem'].
      destruct (IH chunks frag fuel 0 _
                  (printf (graph_exit_line (decode_rstack c)
                             (Fmt.sub_ulong (end_time (decode_rstack c))
                                (start_time (decode_rstack c)))
                             (graph_name (table w) (child_ip (decode_rstack c)))) w)
                  ltac:(lia) Hrem' Hall Hfrag ltac:(lia)) as [fp' ->].
      rewrite graph_events_exit by done. cbn [fst snd].
      change (table (printf _ w)) with (table w).
      rewrite graph_code_zero. unfold printf. rewrite logged_emit.
      eexists. done.
Qed.

(** the output stops on an error exactly when the last record is an
    entry record *)
Lemma graph_events_failed tab rs :
  (graph_events tab rs).2 = true ↔ ∃ r, last rs = Some r ∧ end_time r = 0.
Proof.
  remember (length rs) as n eqn:Hn.
  assert (length rs ≤ n)%nat as Hle by lia. clear Hn.
  revert rs Hle. induction n as [|n IH]; intros rs Hle.
  { destruct rs; [|simpl in Hle; lia]. split; [done | by intros (? & ? & _)]. }
  destruct rs as [|r rest]; [split; [done | by intros (? & ? & _)]|].
  simpl in Hle.
  destruct (decide (end_time r = 0)) as [He|He].
  - destruct rest as [|n' rest].
    { rewrite graph_events_lone by done. split; [|done]. intros _. by exists r. }
    simpl in Hle. rewrite last_cons_cons.
    destruct (decide (depth n' = depth r ∧ end_time n' ≠ 0)) as [[Hd Hn']|Hnot].
    + rewrite graph_events_leaf by done. cbn [snd].
      rewrite IH by lia. destruct rest as [|x rest].
      * split; [by intros (? & ? & _)|]. intros (x & [= <-] & Hx). done.
      * by rewrite last_cons_cons.
    + rewrite graph_events_entry; [cbn [snd]; apply IH; simpl; lia | done |].
      destruct (decide (depth n' = depth r)); [|by left].
      destruct (decide (end_time n' = 0)); [by right|]. by destruct Hnot.
  - rewrite graph_events_exit by done. cbn [snd]. rewrite IH by lia.
    destruct rest as [|x rest]; [|by rewrite last_cons_cons].
    split; [by intros (? & ? & _)|]. intros (x & [= <-] & Hx). done.
Qed.

(** and then the last event is the call of [perror] *)
Lemma graph_events_perror tab rs :
  (graph_events tab rs).2 = true ↔
  last (graph_events tab rs).1 = Some (Perror "error reading rstack").
Proof.
  assert (∀ t evs f,
            (f = true ↔ last evs = Some (Perror "error reading rstack")) →
            (f = true ↔ last (Printf t :: evs) = Some (Perror "error reading rstack")))
    as Hstep.
  { intros t evs f Hi. destruct evs as [|e evs]; [|by rewrite last_cons_cons].
    simpl in *. rewrite Hi. split; done. }
  remember (length rs) as n eqn:Hn.
  assert (length rs ≤ n)%nat as Hle by lia. clear Hn.
  revert rs Hle. induction n as [|n IH]; intros rs Hle.
  { destruct rs; [|simpl in Hle; lia]. simpl. split; done. }
  destruct rs as [|r rest]; [simpl; split; done|]. simpl in Hle.
  destruct (decide (end_time r = 0)) as [He|He].
  - destruct rest as [|n' rest]; [by rewrite graph_events_lone|].
    simpl in Hle.
    destruct (decide (depth n' = depth r ∧ end_time n' ≠ 0)) as [[Hd Hn']|Hnot].
    + rewrite graph_events_leaf by done. cbn [fst snd]. apply Hstep, IH. lia.
    + rewrite graph_events_entry; [cbn [fst snd]; apply Hstep, IH; simpl; lia | done |].
      destruct (decide (depth n' = depth r)); [|by left].
      destruct (decide (end_time n' = 0)); [by right|]. by destruct Hnot.
  - rewrite graph_events_exit by done. cbn [fst snd]. apply Hstep, IH. lia.
Qed.

(** an event for every record or every two records *)
Lemma graph_events_length tab rs :
  (length (graph_events tab rs).1 ≤ length rs ≤ 2 * length (graph_events tab rs).1)%nat.
Proof.
  assert (∃ n, length rs ≤ n)%nat as [n Hle] by (by exists (length rs)).
  revert rs Hle. induction n as [|n IH]; intros rs Hle.
  { destruct rs; [simpl; lia|simpl in Hle; lia]. }
  destruct rs as [|r rest]; [simpl; lia|]. simpl in Hle.
  destruct (decide (end_time r = 0)) as [He|He].
  - destruct rest as [|n' rest].
    { rewrite graph_events_lone by done. simpl. lia. }
    simpl in Hle.
    destruct (decide (depth n' = depth r ∧ end_time n' ≠ 0)) as [[Hd Hn']|Hnot].
    + rewrite graph_events_leaf by done. cbn [fst length].
      specialize (IH rest ltac:(lia)). lia.
    + rewrite graph_events_entry; [| done |].
      * cbn [fst]. specialize (IH (n' :: rest) ltac:(simpl; lia)).
        simpl length in *. lia.
      * destruct (decide (depth n' = depth r)); [|by left].
        destruct (decide (end_time n' = 0)); [by right|]. by destruct Hnot.
  - rewrite graph_events_exit by done. cbn [fst length].
    specialize (IH rest ltac:(lia)). lia.
Qed.

Lemma command_replay_graph (o : opts) (w : world) (hdr frag : list byte)
    (chunks : list (list byte)) (rc : Z) (tab : symtab) :
  flat o = false →
  fs w !! filename o = Some (Regular (hdr ++ concat chunks ++ frag)) →
  valid_header hdr →
  Forall (λ c, length c = rstack_size) chunks →
  (length frag < rstack_size)%nat →
  load_symtab (fs w) (exename o) = (rc, tab) →
  0 ≤ rc →
  command_replay o w =
    Done (graph_code rc (decode_rstack <$> chunks)
            (graph_events tab (decode_rstack <$> chunks)).2,
          set_table no_symtab
            (logged (graph_events tab (decode_rstack <$> chunks)).1 (set_table tab w))).
Proof.
  intros Hflat Hfile Hhdr Hall Hfrag Hload Hrc. unfold command_replay.
  destruct (open_data_file_valid (filename o) (exename o) w hdr _ Hfile Hhdr)
    as (fp & -> & Hdata & Hrem).
  rewrite Hload. rewrite (proj2 (Z.ltb_ge rc 0)) by done. rewrite Hflat.
  destruct (replay_loop_graph (length chunks) chunks frag (S (length (data fp))) rc fp
              (set_table tab w) ltac:(done) Hrem Hall Hfrag) as [fp' ->].
  { rewrite Hdata, !length_app. pose proof (length_concat_chunks chunks Hall). lia. }
  done.
Qed.

(** X1: [command_replay] in the graph output, on a file of whole records
    (and less than a record behind them): the events are those of
    [graph_events] on the records, in the order of the file, the return
    code is -1 when the output stopped on a last entry record, what
    [load_symtab] returned when there is no record, and 0 otherwise; the
    symbol table is unloaded and nothing else of the process changes. *)
Theorem graph_replay_records (o : opts) (w : world) (hdr frag : list byte)
    (chunks : list (list byte)) (rc : Z) (tab : symtab) :
  flat o = false →
  fs w !! filename o = Some (Regular (hdr ++ concat chunks ++ frag)) →
  valid_header hdr →
  Forall (λ c, length c = rstack_size) chunks →
  (length frag < rstack_size)%nat →
  load_symtab (fs w) (exename o) = (rc, tab) →
  0 ≤ rc →
  command_replay o w =
    Done (graph_code rc (decode_rstack <$> chunks)
            (graph_events tab (decode_rstack <$> chunks)).2,
          set_table no_symtab
            (logged (graph_events tab (decode_rstack <$> chunks)).1 (set_table tab w))).
Proof. exact (command_replay_graph o w hdr frag chunks rc tab). Qed.

(** X2: the graph output of a file of whole records fails exactly when the
    last record of the file is an entry record, and then the last thing
    it did is the call of [perror] *)
Theorem graph_replay_fails_on_last_entry (o : opts) (w : world) (hdr frag : list byte)
    (chunks : list (list byte)) (rc : Z) (tab : symtab) :
  flat o = false →
  fs w !! filename o = Some (Regular (hdr ++ concat chunks ++ frag)) →
  valid_header hdr →
  Forall (λ c, length c = rstack_size) chunks →
  (length frag < rstack_size)%nat →
  load_symtab (fs w) (exename o) = (rc, tab) →
  0 ≤ rc →
  ∃ ret w' new, command_replay o w = Done (ret, w') ∧
    log w' = log w ++ new ∧
    (ret = -1 ↔ ∃ c, last chunks = Some c ∧ end_time (decode_rstack c) = 0) ∧
    (ret = -1 ↔ last new = Some (Perror "error reading rstack")) ∧
    (ret = -1 ∨ ret = 0 ∨ (ret = rc ∧ chunks = [])).
Proof.
  intros Hflat Hfile Hhdr Hall Hfrag Hload Hrc.
  rewrite (command_replay_graph o w hdr frag chunks rc tab) by done.
  do 3 eexists. split; [done|]. split; [done|].
  assert ((graph_events tab (decode_rstack <$> chunks)).2 = true
          ↔ ∃ c, last chunks = Some c ∧ end_time (decode_rstack c) = 0) as Hlast.
  { rewrite graph_events_failed. rewrite fmap_last. split.
    - intros (r & Hr & He). destruct (last chunks) as [c|]; [|done].
      exists c. by injection Hr as <-.
    - intros (c & -> & He). by exists (decode_rstack c). }
  assert (graph_code rc (decode_rstack <$> chunks)
            (graph_events tab (decode_rstack <$> chunks)).2 = -1
          ↔ (graph_events tab (decode_rstack <$> chunks)).2 = true) as Hcode.
  { unfold graph_code. destruct (graph_events tab _).2; [done|].
    destruct (decode_rstack <$> chunks); split; (done || lia). }
  split; [by rewrite Hcode|]. split; [by rewrite Hcode, graph_events_perror|].
  unfold graph_code. destruct (graph_events tab _).2; [by left|].
  destruct chunks; [by right; right | by right; left].
Qed.

(** X3: the graph output prints at most one line for a record and at least
    one line for two records *)
Theorem graph_replay_line_count (o : opts) (w : world) (hdr frag : list byte)
    (chunks : list (list byte)) (rc : Z) (tab : symtab) :
  flat o = false →
  fs w !! filename o = Some (Regular (hdr ++ concat chunks ++ frag)) →
  valid_header hdr →
  Forall (λ c, length c = rstack_size) chunks →
  (length frag < rstack_size)%nat →
  load_symtab (fs w) (exename o) = (rc, tab) →
  0 ≤ rc →
  ∃ ret w' new, command_replay o w = Done (ret, w') ∧
    log w' = log w ++ new ∧
    (length new ≤ length chunks ≤ 2 * length new)%nat.
Proof.
  intros Hflat Hfile Hhdr Hall Hfrag Hload Hrc.
  rewrite (command_replay_graph o w hdr frag chunks rc tab) by done.
  do 3 eexists. split; [done|]. split; [done|].
  pose proof (graph_events_length tab (decode_rstack <$> chunks)) as Hlen.
  by rewrite length_fmap in Hlen.
Qed.

End GraphRecords.

(** ** The address list, in general *)

Section AddressListsMore.

Context `{SymbolH}.

(** every [strcat] of the loop leaves the text shorter than [buf] *)
Lemma build_addrlist_loop_bound fuel size tab p fname save buf out :
  build_addrlist_loop fuel size tab p fname save buf = Done out →
  (String.length buf < size)%nat → (String.length out < size)%nat.
Proof.
  revert p fname save buf.
  induction fuel as [|fuel IH]; intros p fname save buf;
    (destruct fname as [name|]; simpl; [|by intros [= <-]]); [done|].
  destruct (find_symname tab name) as [sym|]; simpl.
  - unfold CBuf.strcat. case_decide as Hfit; [|done]. simpl.
    destruct (strtok None ",:" save) as [fname' save'].
    intros Hout _. eapply IH; [done|]. by rewrite string_length_app.
  - destruct (strtok None ",:" save) as [fname' save']. apply IH.
Qed.

Lemma build_addrlist_cases (size : nat) (tab : symtab) (symlist : string) :
  (0 < size)%nat →
  build_addrlist size tab symlist =
    if decide (String.length (addr_pieces tab true (tokens symlist)) < size)%nat
    then Done (addr_pieces tab true (tokens symlist))
    else Overrun.
Proof.
  intros Hsize. case_decide as Hfit; [by apply build_addrlist_done|].
  pose proof (build_addrlist_fuel size tab symlist) as Hfuel.
  destruct (build_addrlist size tab symlist) as [out| |] eqn:E; [|done|done].
  exfalso. apply Hfit.
  rewrite <- (build_addrlist_pieces _ _ _ _ E).
  unfold build_addrlist in E.
  destruct (strtok (Some symlist) ",:" "") as [fname save].
  by eapply build_addrlist_loop_bound.
Qed.

(** X4: [build_addrlist] gives the pieces of the names of the list, in their
    order, when they fit a buffer of [size] characters with the NUL
    behind them, and writes past the end of the buffer otherwise *)
Theorem build_addrlist_exact (size : nat) (tab : symtab) (symlist : string) :
  (0 < size)%nat →
  build_addrlist size tab symlist =
    if decide (String.length (addr_pieces tab true (tokens symlist)) < size)%nat
    then Done (addr_pieces tab true (tokens symlist))
    else Overrun.
Proof. exact (build_addrlist_cases size tab symlist). Qed.

Lemma addr_pieces_unresolved tab first names :
  (∀ name, name ∈ names → find_symname tab name = None) →
  addr_pieces tab first names = "".
Proof.
  revert first. induction names as [|name names IH]; intros first Hall; [done|].
  simpl. unfold addr_piece. rewrite Hall by apply list_elem_of_here.
  simpl. apply IH. intros n Hn. apply Hall. by apply list_elem_of_further.
Qed.

(** X5: a list none of whose names has a symbol gives the empty address
    list, whatever its length *)
Theorem build_addrlist_unresolved (size : nat) (tab : symtab) (symlist : string) :
  (0 < size)%nat →
  (∀ name, name ∈ tokens symlist → find_symname tab name = None) →
  build_addrlist size tab symlist = Done "".
Proof.
  intros Hsize Hall. rewrite build_addrlist_cases by done.
  rewrite addr_pieces_unresolved by done. by rewrite decide_True.
Qed.

End AddressListsMore.

(** ** The environment of the child, in general *)

Section ChildEnvironMore.

Context `{SymbolH} `{McountH}.

Lemma substring_length (n : nat) (s : string) :
  String.length (String.substring 0 n s) = (n `min` String.length s)%nat.
Proof.
  revert n. induction s as [|c s IH]; intros [|n]; simpl; try done.
  by rewrite IH.
Qed.

(** an old value that does not fit behind the library path makes
    [strcat] write past the end of [buf] *)
Lemma prepend_lib_overrun lib_dir lib old :
  (4096 ≤ String.length lib_dir + 1 + String.length lib + 1 + String.length old)%nat →
  prepend_lib lib_dir lib (Some old) = Overrun.
Proof.
  intros Hlong. unfold prepend_lib, CBuf.strcat.
  assert (String.length (CBuf.snprintf 4096 (lib_dir +:+ "/" +:+ lib))
          = 4095 `min` (String.length lib_dir + 1 + String.length lib))%nat as Hlen.
  { unfold CBuf.snprintf. rewrite substring_length, !string_length_app.
    change (String.length "/") with 1%nat. change (4096 - 1)%nat with 4095%nat. lia. }
  change (String.length ":") with 1%nat.
  case_decide as H1; cbn [mbind outcome_bind]; [|done].
  rewrite decide_False; [done|].
  rewrite string_length_app. change (String.length ":") with 1%nat. lia.
Qed.

Lemma prepend_lib_fuel lib_dir lib old : prepend_lib lib_dir lib old ≠ NoFuel.
Proof.
  unfold prepend_lib, CBuf.strcat. destruct old; [|done].
  case_decide; simpl; [|done]. by case_decide.
Qed.

(** X6: LD_PRELOAD or LD_AUDIT too long for [buf]: [setup_child_environ]
    overruns it *)
Theorem setup_child_environ_overrun (o : opts) (tab : symtab) (dbg : bool)
    (env : gmap string string) (old : string) :
  let lib_dir := default "." (lib_path o) in
  (env !! "LD_PRELOAD" = Some old ∧
   4096 ≤ String.length lib_dir + 14 + String.length old)%nat ∨
  (env !! "LD_AUDIT" = Some old ∧
   4096 ≤ String.length lib_dir + 18 + String.length old)%nat →
  setup_child_environ o tab dbg env = Overrun.
Proof.
  intros lib_dir Hlong. unfold setup_child_environ. fold lib_dir.
  destruct Hlong as [[Hold Hlong] | [Hold Hlong]].
  - rewrite Hold, prepend_lib_overrun; [done|]. simpl. lia.
  - pose proof (prepend_lib_fuel lib_dir "libmcount.so" (env !! "LD_PRELOAD")).
    destruct (prepend_lib lib_dir "libmcount.so" _); [|done|done]. simpl.
    rewrite Hold, prepend_lib_overrun; [done|]. simpl. lia.
Qed.

(** X7: [setup_child_environ] changes the six variables it is about and no
    other, and takes no variable away *)
Theorem setup_child_environ_frame (o : opts) (tab : symtab) (dbg : bool)
    (env env' : gmap string string) :
  setup_child_environ o tab dbg env = Done env' →
  (∀ name, name ∉ child_variables → env' !! name = env !! name) ∧
  (∀ name, is_Some (env !! name) → is_Some (env' !! name)) ∧
  is_Some (env' !! "LD_PRELOAD") ∧ is_Some (env' !! "LD_AUDIT").
Proof.
  unfold setup_child_environ.
  destruct (prepend_lib _ "libmcount.so" _) as [pre| |]; simpl; [|done|done].
  destruct (prepend_lib _ "librtld-audit.so" _) as [aud| |]; simpl; [|done|done].
  intros Hdone.
  assert (∃ fl nt, env' = child_environ o dbg pre aud fl nt env) as (fl & nt & ->).
  { destruct (filter o) as [l|]; simpl in Hdone.
    - destruct (build_addrlist 4096 tab l) as [b| |]; simpl in Hdone; [|done|done].
      destruct (notrace o) as [l'|]; simpl in Hdone.
      + destruct (build_addrlist 4096 tab l') as [b'| |]; simpl in Hdone; [|done|done].
        injection Hdone as <-. by exists (Some b), (Some b').
      + injection Hdone as <-. by exists (Some b), None.
    - destruct (notrace o) as [l'|]; simpl in Hdone.
      + destruct (build_addrlist 4096 tab l') as [b'| |]; simpl in Hdone; [|done|done].
        injection Hdone as <-. by exists None, (Some b').
      + injection Hdone as <-. by exists None, None. }
  split; [|split; [|split]].
  - intros name Hname. unfold child_variables in Hname.
    repeat (apply not_elem_of_cons in Hname as [? Hname]).
    unfold child_environ.
    destruct fl, nt, dbg, (decide (filename o = FTRACE_FILE_NAME)); simpl;
      by repeat (rewrite lookup_insert_ne by done).
  - intros name Hsome. unfold child_environ.
    destruct fl, nt, dbg, (decide (filename o = FTRACE_FILE_NAME)); simpl;
      repeat (rewrite lookup_insert; case_decide; [done|]); done.
  - by rewrite child_environ_preload.
  - by rewrite child_environ_audit.
Qed.

End ChildEnvironMore.

(** ** record, in general *)

Section RecordMore.

Context `{SymbolH} `{McountH} `{Platform}.


(** X9: [command_record] returns 0 or -1; it returns 0 exactly when the
    symbol table of the target loads, has the symbol [mcount], [fork]
    gives a child, and the trace file is there once the child has ended;
    the status of the child does not count *)
Theorem command_record_returns (argv : list string) (o : opts) (w : world)
    (rc : Z) (tab : symtab) :
  load_symtab (fs (backup_old_file o w)) (exename o) = (rc, tab) →
  ((command_record argv o w).1 = 0 ∨ (command_record argv o w).1 = -1) ∧
  ((command_record argv o w).1 = 0 ↔
     0 ≤ rc ∧ is_Some (find_symname tab "mcount") ∧
     fork_ok (log (before_fork o tab w)) = true ∧
     is_Some ((child argv o (emit Fork (before_fork o tab w))).2 !! filename o)).
Proof.
  intros Hload. unfold command_record, before_fork. rewrite Hload.
  destruct (rc <? 0) eqn:Erc.
  { apply Z.ltb_lt in Erc. simpl. split; [by right|].
    split; [done | intros (? & _); lia]. }
  apply Z.ltb_ge in Erc. simpl.
  destruct (find_symname tab "mcount") as [s|]; simpl.
  2:{ split; [by right|]. split; [done | by intros (_ & [? ?] & _)]. }
  destruct (fork_ok _) eqn:Efork; simpl.
  2:{ split; [by right|]. split; [done | by intros (_ & _ & ? & _)]. }
  destruct (child argv o _) as [status fs'] eqn:Echild. simpl.
  assert (∀ v : world, fs (if WIFSIGNALED status
                           then printf ("child (" +:+ exename o +:+
                                        ") was terminated by signal: " +:+
                                        Fmt.d (WTERMSIG status) +:+ nl) v
                           else v) = fs v) as Hfs.
  { intros v. by destruct (WIFSIGNALED status). }
  rewrite Hfs. simpl.
  destruct (fs' !! filename o) as [node|]; simpl.
  - split; [by left|]. split; [|done]. intros _. repeat split; (done || by eexists).
  - split; [by right|]. split; [done|]. by intros (_ & _ & _ & [? ?]).
Qed.

(** X10: in the parent, [command_record] leaves the environment, [debug] and
    the counter of the flat output as they are, and only adds to what
    the process did; the variables are set in the child alone *)
Theorem command_record_frame (argv : list string) (o : opts) (w : world) :
  let w' := (command_record argv o w).2 in
  environ w' = environ w ∧ debug w' = debug w ∧ count w' = count w ∧
  ∃ new, log w' = log w ++ new.
Proof.
  unfold command_record.
  assert (environ (backup_old_file o w) = environ w ∧
          debug (backup_old_file o w) = debug w ∧
          count (backup_old_file o w) = count w) as (He & Hd & Hc).
  { unfold backup_old_file, rename. case_decide; [|done]. simpl.
    by destruct (fs w !! filename o). }
  destruct (backup_old_file_log o w) as (new & Hlog & _).
  destruct (load_symtab _ _) as [rc tab].
  destruct (rc <? 0); simpl; [by eauto 10|].
  destruct (find_symname tab "mcount"); simpl.
  2:{ rewrite Hlog, <- app_assoc. by eauto 10. }
  destruct (fork_ok _); simpl.
  2:{ rewrite Hlog, <- !app_assoc. by eauto 10. }
  destruct (child argv o _) as [status fs']. simpl.
  destruct (WIFSIGNALED status); simpl;
    destruct (fs' !! filename o); simpl; rewrite Hlog, <- !app_assoc; by eauto 10.
Qed.

Lemma command_record_abort (argv : list string) (o : opts) (w : world)
    (rc : Z) (tab : symtab) (s : sym) :
  load_symtab (fs (backup_old_file o w)) (exename o) = (rc, tab) →
  0 ≤ rc →
  find_symname tab "mcount" = Some s →
  fork_ok (log (before_fork o tab w)) = true →
  execv (setup_child_environ o tab (debug w) (environ w)) (exename o)
        (drop (idx o) argv) (fs (backup_old_file o w)) = None →
  let w1 := printf ("child (" +:+ exename o +:+ ") was terminated by signal: 6" +:+ nl)
              (emit Waitpid (emit Fork (before_fork o tab w))) in
  command_record argv o w =
    match fs (backup_old_file o w) !! filename o with
    | Some _ => (0, w1)
    | None => (-1, printf ("Cannot generate data file" +:+ nl) w1)
    end.
Proof.
  intros Hload Hrc Hm Hfork Hexec w1. subst w1.
  assert (environ (backup_old_file o w) = environ w ∧
          debug (backup_old_file o w) = debug w) as (He & Hd).
  { unfold backup_old_file, rename. case_decide; [|done]. simpl.
    by destruct (fs w !! filename o). }
  unfold command_record, before_fork in *. rewrite Hload.
  rewrite (proj2 (Z.ltb_ge rc 0)) by done. simpl. rewrite Hm. simpl in *.
  rewrite Hfork. simpl. unfold child. simpl. rewrite He, Hd, Hexec. simpl.
  destruct (backup_old_file o w) as [f e t d c l]. simpl.
  destruct (f !! filename o); done.
Qed.

(** X11: when [execv] fails the child aborts: the parent reports signal 6,
    and what it returns still depends on the trace file alone *)
Theorem command_record_exec_fails (argv : list string) (o : opts) (w : world)
    (rc : Z) (tab : symtab) (s : sym) :
  load_symtab (fs (backup_old_file o w)) (exename o) = (rc, tab) →
  0 ≤ rc →
  find_symname tab "mcount" = Some s →
  fork_ok (log (before_fork o tab w)) = true →
  execv (setup_child_environ o tab (debug w) (environ w)) (exename o)
        (drop (idx o) argv) (fs (backup_old_file o w)) = None →
  let w1 := printf ("child (" +:+ exename o +:+ ") was terminated by signal: 6" +:+ nl)
              (emit Waitpid (emit Fork (before_fork o tab w))) in
  command_record argv o w =
    match fs (backup_old_file o w) !! filename o with
    | Some _ => (0, w1)
    | None => (-1, printf ("Cannot generate data file" +:+ nl) w1)
    end.
Proof. exact (command_record_abort argv o w rc tab s). Qed.

End RecordMore.

(** ** replay and live, in general *)

Section ReplayMore.

Context `{SymbolH} `{McountH} `{Platform}.

Lemma replayed_refl w : replayed w w.
Proof. repeat split. exists []. rewrite app_nil_r. by split. Qed.

Lemma replayed_output e w w' :
  is_output e → replayed (emit e w) w' → replayed w w'.
Proof.
  intros He (Hf & Hen & Hd & Ht & new & Hl & Hall). simpl in *.
  repeat split; try done. exists (e :: new).
  rewrite Hl, <- app_assoc. split; [done|]. by apply Forall_cons.
Qed.

Lemma replayed_count c w w' : replayed (set_count c w) w' → replayed w w'.
Proof.
  intros (Hf & Hen & Hd & Ht & new & Hl & Hall). simpl in *.
  repeat split; try done. by exists new.
Qed.

Lemma replay_loop_replayed fuel is_flat ret fp w r fp' w' :
  replay_loop fuel is_flat ret fp w = Done (r, fp', w') → replayed w w'.
Proof.
  revert ret fp w. induction fuel as [|fuel IH]; intros ret fp w; [done|].
  rewrite replay_loop_step.
  destruct (fread_rstack fp) as [[rs|] fp1]; [|intros [= <- <- <-]; apply replayed_refl].
  destruct is_flat.
  - rewrite print_flat_rstack_line. simpl. intros Hloop. apply IH in Hloop.
    eapply replayed_count. by refine (replayed_output (Printf _) _ _ _ Hloop).
  - unfold print_graph_rstack.
    destruct (end_time rs =? 0).
    + destruct (fread_rstack fp1) as [[n|] fp2].
      * destruct (_ && _); simpl; intros Hloop; apply IH in Hloop;
          by refine (replayed_output (Printf _) _ _ _ Hloop).
      * simpl. intros [= <- <- <-].
        by refine (replayed_output (Perror _) _ _ _ (replayed_refl _)).
    + simpl. intros Hloop. apply IH in Hloop.
      by refine (replayed_output (Printf _) _ _ _ Hloop).
Qed.

(** X12: [command_replay] only reads: whatever the file holds and whatever
    the output format, it leaves the files, the environment and [debug]
    as they are, and what it adds to the doings of the process is output *)
Theorem command_replay_reads_only (o : opts) (w : world) :
  ∃ ret w' new, command_replay o w = Done (ret, w') ∧
    fs w' = fs w ∧ environ w' = environ w ∧ debug w' = debug w ∧
    log w' = log w ++ new ∧ Forall is_output new.
Proof.
  destruct (command_replay_total o w) as [[ret w'] Hr].
  exists ret, w'. revert Hr. unfold command_replay, open_data_file.
  destruct (fopen (fs w) (filename o)) as [fp|errno].
  - destruct (fread_header fp) as [hdr fp1].
    destruct (magic_ok hdr); simpl.
    2:{ intros [= <- <-]. eexists. split; [done|]. simpl.
        repeat split. by repeat constructor. }
    destruct (header_version hdr =? FTRACE_VERSION); simpl.
    2:{ intros [= <- <-]. eexists. split; [done|]. simpl.
        repeat split. by repeat constructor. }
    destruct (load_symtab (fs w) (exename o)) as [rc tab].
    destruct (rc <? 0).
    { intros [= <- <-]. exists []. split; [done|]. simpl.
      rewrite app_nil_r. repeat split. constructor. }
    destruct (replay_loop _ _ _ _ _) as [[[r fp'] w1]| |] eqn:Eloop; simpl; [|done|done].
    intros [= <- <-].
    apply replay_loop_replayed in Eloop as (Hf & He & Hd & _ & new & Hl & Hall).
    exists new. by split.
  - destruct (errno =? ENOENT); intros [= <- <-]; eexists; (split; [done|]); simpl;
      repeat split; by repeat constructor.
Qed.

Lemma open_data_file_stale (name exe : string) (w : world) :
  fs w !! name = Some (Regular []) →
  let stale := take header_size uninit_header in
  open_data_file name exe w =
    if negb (magic_ok stale)
    then (None, printf ("invalid magic string found!" +:+ nl) w)
    else if negb (header_version stale =? FTRACE_VERSION)
    then (None, printf ("invalid vergion number found!" +:+ nl) w)
    else (Some {| data := []; fpos := 0 |}, w).
Proof.
  intros Hfile stale. unfold open_data_file, fopen. rewrite Hfile.
  unfold fread_header, fread. simpl. rewrite take_nil. simpl. rewrite drop_0.
  done.
Qed.

(** X13: a trace file shorter than the header: [fread] fills the front of
    the header and leaves the rest as it was, so the file is judged on
    its bytes followed by what the header held before; when they pass,
    the stream is at the end of the file *)
Theorem open_data_file_short (name exe : string) (w : world) (bytes : list byte) :
  fs w !! name = Some (Regular bytes) →
  (length bytes < header_size)%nat →
  let header := bytes ++ drop (length bytes) (take header_size uninit_header) in
  open_data_file name exe w =
    if negb (magic_ok header)
    then (None, printf ("invalid magic string found!" +:+ nl) w)
    else if negb (header_version header =? FTRACE_VERSION)
    then (None, printf ("invalid vergion number found!" +:+ nl) w)
    else (Some {| data := bytes; fpos := length bytes |}, w).
Proof.
  intros Hfile Hshort header. unfold open_data_file, fopen. rewrite Hfile.
  unfold fread_header, fread. simpl. rewrite drop_0.
  rewrite take_ge by lia. done.
Qed.

(** X14: when the symbol table of the target does not load, [command_replay]
    returns the code of [load_symtab]: it reads no record and prints
    nothing, whatever the file holds behind its header *)
Theorem command_replay_load_fails (o : opts) (w : world) (hdr body : list byte)
    (rc : Z) (tab : symtab) :
  fs w !! filename o = Some (Regular (hdr ++ body)) →
  valid_header hdr →
  load_symtab (fs w) (exename o) = (rc, tab) →
  rc < 0 →
  command_replay o w = Done (rc, set_table tab w).
Proof.
  intros Hfile Hhdr Hload Hrc. unfold command_replay.
  destruct (open_data_file_valid _ (exename o) _ _ _ Hfile Hhdr) as (fp & -> & _).
  rewrite Hload. by rewrite (proj2 (Z.ltb_lt rc 0) Hrc).
Qed.

(** X15: live on a target that [execv] cannot start: the child aborts, the
    empty file [mkstemp] made is still there, so recording returns 0 and
    the replay runs on the empty file, whose header is the stale bytes;
    the temporary file is unlinked and the result is 0 *)
Theorem command_live_exec_fails (argv : list string) (o : opts) (w : world)
    (template : string) (rc : Z) (tab : symtab) (s : sym) :
  mkstemp "/tmp/ftrace-live-XXXXXX" (fs w) = Some template →
  template ≠ FTRACE_FILE_NAME →
  load_symtab (<[template := Regular []]> (fs w)) (exename o) = (rc, tab) →
  0 ≤ rc →
  find_symname tab "mcount" = Some s →
  fork_ok (log w ++ [Mkstemp template; Fflush]) = true →
  execv (setup_child_environ (with_filename template o) tab (debug w) (environ w))
        (exename o) (drop (idx o) argv) (<[template := Regular []]> (fs w)) = None →
  magic_ok (take header_size uninit_header) = false →
  ∃ w', command_live argv o w = Done (0, w') ∧
    log w' = log w ++
      [ Mkstemp template; Fflush; Fork; Waitpid;
        Printf ("child (" +:+ exename o +:+ ") was terminated by signal: 6" +:+ nl);
        Printf ("invalid magic string found!" +:+ nl);
        Unlink template ] ∧
    fs w' = delete template (fs w).
Proof.
  intros Hmk Hne Hload Hrc Hm Hfork Hexec Hstale.
  unfold command_live. rewrite Hmk.
  set (o' := with_filename template o).
  set (w0 := emit (Mkstemp template) (set_fs (<[template:=Regular []]> (fs w)) w)).
  assert (backup_old_file o' w0 = w0) as Hback.
  { unfold backup_old_file. rewrite decide_False; [done|]. simpl. congruence. }
  rewrite (command_record_abort argv o' w0 rc tab s); rewrite ?Hback; try done.
  2:{ unfold before_fork. rewrite Hback. simpl. by rewrite <- app_assoc. }
  cbn [fs set_table emit printf before_fork w0 set_fs].
  change (filename o') with template. rewrite lookup_insert_eq.
  rewrite Z.eqb_refl.
  unfold command_replay.
  rewrite open_data_file_stale
    by (simpl; rewrite Hback; simpl; apply lookup_insert_eq).
  rewrite Hstale. simpl. eexists. split; [done|]. simpl.
  rewrite Hback. simpl. rewrite <- !app_assoc. split; [done|].
  by rewrite delete_insert_eq.
Qed.

End ReplayMore.

(** ** The command line *)

Section CommandLine.

Context `{SymbolH} `{McountH} `{Platform}.

Lemma parse_option_parsed key arg state o dbg c o' dbg' :
  parse_option key arg state o dbg = Returns c o' dbg' →
  parsed_opts o → parsed_opts o'.
Proof.
  unfold parse_option, parsed_opts, mode_of_words. intros Hp [Hmode Hexe].
  repeat (case_match; simplify_eq/=; try done);
    try (split; [by auto | done]).
  split; [done|]. intros _. by apply Z.eqb_neq.
Qed.

Lemma parse_calls_parsed calls o dbg c o' dbg' :
  parse_calls calls o dbg = Returns c o' dbg' →
  parsed_opts o → parsed_opts o'.
Proof.
  revert o dbg. induction calls as [|[[key arg] state] calls IH]; intros o dbg; simpl.
  - by intros [= _ <- _].
  - destruct (parse_option key arg state o dbg) as [c1 o1 d1| |] eqn:E; [|done|done].
    intros Hr Hp. eapply IH; [done|]. by eapply parse_option_parsed.
Qed.

(** X16: whatever calls [argp_parse] makes, [opts] never has the mode of
    [command_report], and has the mode of record, replay or live as soon
    as it names a target; the word report, which the usage text shows,
    is refused like any unknown word *)
Theorem report_mode_unreachable
    (calls : list (Z * option string * Cli.argp_state)) (dbg : bool) :
  (∀ c o d, parse_calls calls initial_opts dbg = Returns c o d →
     Cli.mode o ≠ FTRACE_MODE_REPORT ∧
     (is_Some (Cli.exename o) →
        Cli.mode o = FTRACE_MODE_RECORD ∨ Cli.mode o = FTRACE_MODE_REPLAY ∨
        Cli.mode o = FTRACE_MODE_LIVE)) ∧
  (∀ state o d, Cli.arg_num state = 0%nat →
     parse_option ARGP_KEY_ARG (Some "report") state o d = Returns ARGP_ERR_UNKNOWN o d).
Proof.
  split.
  - intros c o d Hr.
    apply parse_calls_parsed in Hr as [Hmode Hexe].
    2:{ split; [by left | by intros [? ?]]. }
    unfold mode_of_words in Hmode. split.
    + by destruct Hmode as [-> | [-> | [-> | ->]]].
    + intros Hsome. specialize (Hexe Hsome).
      destruct Hmode as [? | [? | [? | ?]]]; auto. done.
  - intros state o d Hnum. unfold parse_option. simpl. by rewrite decide_True.
Qed.

(** X17: a call of [parse_option] that returns an error returns
    ARGP_ERR_UNKNOWN and has changed nothing *)
Theorem parse_option_error_keeps (key : Z) (arg : option string)
    (state : Cli.argp_state) (o o' : Cli.opts) (dbg dbg' : bool) (c : Z) :
  parse_option key arg state o dbg = Returns c o' dbg' →
  c ≠ 0 →
  c = ARGP_ERR_UNKNOWN ∧ o' = o ∧ dbg' = dbg.
Proof.
  unfold parse_option. intros Hp Hc.
  repeat (case_match; simplify_eq/=; try done).
Qed.

Lemma parse_calls_app calls calls' o dbg :
  parse_calls (calls ++ calls') o dbg =
  match parse_calls calls o dbg with
  | Returns _ o dbg => parse_calls calls' o dbg
  | Usage => Usage
  | NullArg => NullArg
  end.
Proof.
  revert o dbg. induction calls as [|[[key arg] state] calls IH]; intros o dbg; simpl.
  - done.
  - by destruct (parse_option key arg state o dbg).
Qed.

(** X18: when the last call, the one for ARGP_KEY_END, returns, a target is
    named and the mode is record, replay or live *)
Theorem parse_calls_end (calls : list (Z * option string * Cli.argp_state))
    (arg : option string) (state : Cli.argp_state) (dbg : bool) (c : Z)
    (o : Cli.opts) (d : bool) :
  parse_calls (calls ++ [(ARGP_KEY_END, arg, state)]) initial_opts dbg = Returns c o d →
  is_Some (Cli.exename o) ∧
  (Cli.mode o = FTRACE_MODE_RECORD ∨ Cli.mode o = FTRACE_MODE_REPLAY ∨
   Cli.mode o = FTRACE_MODE_LIVE).
Proof.
  intros Hr.
  assert (is_Some (Cli.exename o)) as Hexe.
  { rewrite parse_calls_app in Hr.
    destruct (parse_calls calls initial_opts dbg) as [c1 o1 d1| |]; [|done|done].
    simpl in Hr. unfold parse_option in Hr. simpl in Hr.
    destruct (bool_decide (Cli.arg_num state < 1)%nat); simpl in Hr; [done|].
    destruct (bool_decide (Cli.exename o1 = None)) eqn:Ee; simpl in Hr; [done|].
    injection Hr as _ <- _. apply bool_decide_eq_false in Ee.
    by destruct (Cli.exename o1). }
  split; [done|].
  apply parse_calls_parsed in Hr as [Hmode Hmode'].
  2:{ split; [by left | by intros [? ?]]. }
  specialize (Hmode' Hexe). unfold mode_of_words in Hmode.
  destruct Hmode as [? | [? | [? | ?]]]; auto. done.
Qed.

(** the file name is NULL until the option -f gives one *)
Lemma parse_calls_filename calls o dbg c o' d :
  Forall (λ call, call.1.1 ≠ key_of "f") calls →
  parse_calls calls o dbg = Returns c o' d →
  Cli.filename o' = Cli.filename o.
Proof.
  revert o dbg. induction calls as [|[[key arg] state] calls IH]; intros o dbg Hall; simpl.
  - by intros [= _ <- _].
  - apply Forall_cons in Hall as [Hkey Hall]. simpl in Hkey.
    destruct (parse_option key arg state o dbg) as [c1 o1 d1| |] eqn:E; [|done|done].
    intros Hr. rewrite (IH _ _ Hall Hr).
    unfold parse_option in E. apply Z.eqb_neq in Hkey.
    repeat (case_match; simplify_eq/=; try done).
Qed.

Lemma main_switch_ends (args : list string) (o : Cli.opts) (w : world) :
  (∀ r, main_switch args o w = Some (Done r) → r.1 = 0) ∧
  (is_Some (Cli.exename o) →
   is_Some (Cli.filename o) ∨ Cli.mode o = FTRACE_MODE_LIVE →
   ∃ w', main_switch args o w = Some (Done (0, w'))).
Proof.
  unfold main_switch, command_opts. split.
  - intros r.
    destruct (Cli.mode o =? FTRACE_MODE_RECORD);
      [|destruct (Cli.mode o =? FTRACE_MODE_REPLAY);
        [|destruct (Cli.mode o =? FTRACE_MODE_LIVE);
          [|destruct (Cli.mode o =? FTRACE_MODE_REPORT)]]];
      destruct (Cli.exename o) as [exe|], (Cli.filename o) as [name|]; simpl;
      try done; try (by intros [= <-]);
      match goal with
      | |- context [command_replay ?a ?b] =>
          destruct (command_replay a b) as [[? ?]| |]
      | |- context [command_live ?a ?b ?c] =>
          destruct (command_live a b c) as [[? ?]| |]
      end; simpl; try done; by intros [= <-].
  - intros [exe Hexe] Hname. rewrite Hexe. simpl.
    destruct (Cli.mode o =? FTRACE_MODE_RECORD) eqn:E1.
    { destruct Hname as [[name ->] | Hlive]; [simpl; by eexists|].
      apply Z.eqb_eq in E1. rewrite Hlive in E1. done. }
    destruct (Cli.mode o =? FTRACE_MODE_REPLAY) eqn:E2.
    { destruct Hname as [[name ->] | Hlive].
      - simpl. destruct (command_replay_total
                           {| lib_path := Cli.lib_path o; filter := Cli.filter o;
                              notrace := Cli.notrace o; exename := exe; filename := name;
                              flat := negb (Cli.flat o =? 0); idx := Cli.idx o |} w)
          as [[ret w'] ->]. simpl. by eexists.
      - apply Z.eqb_eq in E2. rewrite Hlive in E2. done. }
    destruct (Cli.mode o =? FTRACE_MODE_LIVE) eqn:E3.
    { destruct (command_live_total args
                  {| lib_path := Cli.lib_path o; filter := Cli.filter o;
                     notrace := Cli.notrace o; exename := exe;
                     filename := default "" (Cli.filename o);
                     flat := negb (Cli.flat o =? 0); idx := Cli.idx o |} w)
        as [[ret w'] ->]. simpl. by eexists. }
    destruct (Cli.mode o =? FTRACE_MODE_REPORT); by eexists.
Qed.


(** X20: without the option -f the file name is NULL: record and replay hand
    it to [strcmp] and [fopen], live puts the name of its temporary file
    in its place and runs *)
Theorem main_without_file_option
    (calls : list (Z * option string * Cli.argp_state)) (dbg d : bool) (c : Z)
    (o : Cli.opts) (args : list string) (w : world) :
  Forall (λ call, call.1.1 ≠ key_of "f") calls →
  parse_calls calls initial_opts dbg = Returns c o d →
  (Cli.mode o = FTRACE_MODE_RECORD ∨ Cli.mode o = FTRACE_MODE_REPLAY →
     main_switch args o w = None) ∧
  (Cli.mode o = FTRACE_MODE_LIVE → is_Some (Cli.exename o) →
     ∃ w', main_switch args o w = Some (Done (0, w'))).
Proof.
  intros Hall Hr.
  pose proof (parse_calls_filename _ _ _ _ _ _ Hall Hr) as Hname. simpl in Hname.
  split.
  - unfold main_switch, command_opts. rewrite Hname.
    intros [-> | ->]; simpl; by destruct (Cli.exename o).
  - intros Hlive Hexe.
    apply (proj2 (main_switch_ends args o w)); [done | by right].
Qed.

End CommandLine.

(** ** Runs on the sample platform *)

#[local] Existing Instance Sample.symbols.
#[local] Existing Instance Sample.layout.
#[local] Existing Instance Sample.platform.

Lemma build_addrlist_first_slot_witness :
  build_addrlist (H := Sample.symbols) 4096
    [ {| sym_name := "foo"; sym_addr := 0x1000; sym_size := 0x10 |} ]
    "foo,bar" = Done "0x1000" ∧
  build_addrlist (H := Sample.symbols) 4096
    [ {| sym_name := "foo"; sym_addr := 0x1000; sym_size := 0x10 |} ]
    "bar,foo" = Done ":0x1000".
Proof.
  apply (build_addrlist_first_slot (H := Sample.symbols)
           [ {| sym_name := "foo"; sym_addr := 0x1000; sym_size := 0x10 |} ]
           {| sym_name := "foo"; sym_addr := 0x1000; sym_size := 0x10 |} ",");
    [reflexivity | reflexivity | reflexivity | left; reflexivity].
Defined.

Lemma setup_child_environ_prepends_witness :
  ∃ env', setup_child_environ (H := Sample.symbols)
            Sample.options [] false {[ "LD_PRELOAD" := "/lib/x.so" ]} = Done env' ∧
    env' !! "LD_PRELOAD" = Some "./libmcount.so:/lib/x.so" ∧
    env' !! "LD_AUDIT" = Some "./librtld-audit.so".
Proof.
  destruct (setup_child_environ_prepends (H := Sample.symbols)
              Sample.options [] false {[ "LD_PRELOAD" := "/lib/x.so" ]})
    as (env' & E & P & A).
  - simpl. lia.
  - vm_compute. discriminate.
  - exists env'. split; [exact E|].
    split; (etrans; [eassumption | vm_compute; reflexivity]).
Defined.

(** C6 as the spec has it fails: a filter none of whose names is in the
    symbol table gives an empty address list, and FTRACE_FILTER, which
    was not set, is set to the empty string. *)
Lemma setup_child_environ_sets_empty_list :
  (∅ : gmap string string) !! "FTRACE_FILTER" = None ∧
  build_addrlist (H := Sample.symbols) 4096 (Sample.by_address Sample.image) "nosuch"
    = Done "" ∧
  (λ env', env' !! "FTRACE_FILTER") <$>
    setup_child_environ (H := Sample.symbols)
      {| lib_path := None; filter := Some "nosuch"; notrace := None;
         exename := "a.out"; filename := "ftrace.data"; flat := false; idx := 1 |}
      (Sample.by_address Sample.image) false ∅
    = Done (Some "").
Proof. split; [done|]. split; vm_compute; reflexivity. Qed.

Lemma setup_child_environ_optional_witness :
  ∃ env', setup_child_environ (H := Sample.symbols)
            {| lib_path := Some "/opt/ftrace"; filter := Some "foo,nosuch,bar";
               notrace := None; exename := "a.out"; filename := "run1.data";
               flat := false; idx := 1 |}
            (Sample.by_address Sample.image) false {[ "FTRACE_DEBUG" := "0" ]} = Done env' ∧
    (∃ buf, build_addrlist (H := Sample.symbols) 4096 (Sample.by_address Sample.image)
              "foo,nosuch,bar" = Done buf ∧
            env' !! "FTRACE_FILTER" = Some buf) ∧
    env' !! "FTRACE_NOTRACE" = None ∧
    env' !! "FTRACE_FILE" = Some "run1.data" ∧
    env' !! "FTRACE_DEBUG" = Some "0".
Proof.
  destruct (setup_child_environ_optional (H := Sample.symbols)
           {| lib_path := Some "/opt/ftrace"; filter := Some "foo,nosuch,bar";
              notrace := None; exename := "a.out"; filename := "run1.data";
              flat := false; idx := 1 |}
           (Sample.by_address Sample.image) false {[ "FTRACE_DEBUG" := "0" ]})
    as (env' & E & F & N & P & D).
  - simpl. lia.
  - vm_compute. discriminate.
  - exists env'. split; [exact E|]. split; [exact F|].
    split; [etrans; [exact N | vm_compute; reflexivity]|].
    split; [etrans; [exact P | vm_compute; reflexivity]|].
    etrans; [exact D | vm_compute; reflexivity].
Defined.

Lemma open_data_file_checks_witness :
  let w := Sample.start
             {[ "ok.data" := Regular (Sample.trace Sample.six);
                "magic.data" := Regular ([ "F"; "t"; "r"; "a"; "c"; "e"; "?"; "000" ]%byte
                                           ++ Sample.le_bytes 4 1);
                "v2.data" := Regular (Sample.header 2);
                "locked.data" := Unreadable 13 ]} in
  open_data_file "none.data" "a.out" w
    = (None, printf (not_found_msg "none.data" "a.out") w) ∧
  open_data_file "locked.data" "a.out" w
    = (None, perror "ftrace" w) ∧
  open_data_file "magic.data" "a.out" w
    = (None, printf ("invalid magic string found!" +:+ nl) w) ∧
  open_data_file "v2.data" "a.out" w
    = (None, printf ("invalid vergion number found!" +:+ nl) w) ∧
  open_data_file "ok.data" "a.out" w
    = (Some {| data := Sample.trace Sample.six; fpos := 12 |}, w).
Proof.
  intros w.
  pose proof (open_data_file_checks) as C.
  split; [|split; [|split; [|split]]].
  - apply (C "none.data" "a.out" w). reflexivity.
  - apply (proj1 (proj2 (C "locked.data" "a.out" w)) 13). reflexivity.
  - destruct (C "magic.data" "a.out" w) as (_ & _ & Hc & _).
    apply (proj1 (Hc _ eq_refl) 6%nat); [simpl; lia | vm_compute; discriminate].
  - destruct (C "v2.data" "a.out" w) as (_ & _ & Hc & _).
    apply (proj1 (proj2 (Hc _ eq_refl))); [reflexivity | vm_compute; discriminate].
  - destruct (C "ok.data" "a.out" w) as (_ & _ & Hc & _).
    apply (proj2 (proj2 (Hc _ eq_refl))); reflexivity.
Defined.

Ltac sample_header := split; [|split]; vm_compute; reflexivity.

(** the graph output of the six records, as printed *)
Lemma graph_collapses_leaf_witness :
  ∃ w', command_replay Sample.options (Sample.start Sample.six_files) = Done (0, w') ∧
    log w' =
      [ Printf ("          [ 1234] | main() {" +:+ nl);
        Printf ("          [ 1234] |   foo() {" +:+ nl);
        Printf ("  30 usec [ 1234] |     bar();" +:+ nl);
        Printf ("  60 usec [ 1234] |   } /* foo */" +:+ nl);
        Printf (" 100 usec [ 1234] | } /* main */" +:+ nl) ].
Proof.
  destruct (graph_collapses_leaf Sample.options (Sample.start Sample.six_files)
              (Sample.header 1)
              (Sample.encode (Sample.enter 0x400100 0x7000 0 100))
              (Sample.encode (Sample.enter 0x1000 0x400120 1 110))
              (Sample.encode (Sample.enter 0x2000 0x1008 2 120))
              (Sample.encode (Sample.leave 0x2000 0x1008 2 120 150))
              (Sample.encode (Sample.leave 0x1000 0x400120 1 110 170))
              (Sample.encode (Sample.leave 0x400100 0x7000 0 100 200))
              0 (Sample.by_address Sample.image)
              1234 0 1 2 0x7000 0x400120 0x1008 0x400100 0x1000 0x2000
              100 110 120 150 170 200) as (w' & E & L & _);
    try reflexivity; try lia.
  - sample_header.
  - repeat constructor.
  - exists w'. split; [exact E|]. rewrite L. vm_compute. reflexivity.
Defined.

(** C1 as the spec has it fails: the six records give five lines, not
    four. *)
Lemma graph_six_records_five_lines :
  (λ r, (r.1, log r.2)) <$> command_replay Sample.options (Sample.start Sample.six_files) =
    Done (0, [ Printf ("          [ 1234] | main() {" +:+ nl);
               Printf ("          [ 1234] |   foo() {" +:+ nl);
               Printf ("  30 usec [ 1234] |     bar();" +:+ nl);
               Printf ("  60 usec [ 1234] |   } /* foo */" +:+ nl);
               Printf (" 100 usec [ 1234] | } /* main */" +:+ nl) ]) ∧
  (λ r, length (log r.2)) <$> command_replay Sample.options (Sample.start Sample.six_files)
    ≠ Done 4%nat.
Proof. split; [vm_compute; reflexivity | vm_compute; discriminate]. Qed.

(** the flat output of the six records, as printed *)
Lemma flat_one_line_per_record_witness :
  ∃ w', command_replay Sample.flat_options (Sample.start Sample.six_files) = Done (0, w') ∧
    log w' =
      [ Printf ("[0] 1234/0: ip (__libc_start_main -> main), time (100)" +:+ nl);
        Printf ("[1] 1234/1: ip (main -> foo), time (110)" +:+ nl);
        Printf ("[2] 1234/2: ip (foo -> bar), time (120)" +:+ nl);
        Printf ("[3] 1234/2: ip (foo <- bar), time (150:30)" +:+ nl);
        Printf ("[4] 1234/1: ip (main <- foo), time (170:60)" +:+ nl);
        Printf ("[5] 1234/0: ip (__libc_start_main <- main), time (200:100)" +:+ nl) ].
Proof.
  destruct (flat_one_line_per_record Sample.flat_options (Sample.start Sample.six_files)
              (Sample.header 1) [] (Sample.encode <$> Sample.six)
              0 (Sample.by_address Sample.image)) as (w' & E & L & _);
    try reflexivity; try lia.
  - sample_header.
  - repeat constructor.
  - simpl. lia.
  - exists w'. split; [exact E|]. rewrite L. vm_compute. reflexivity.
Defined.

(** a trace cut in the middle of a record, and a trace cut after an entry *)
Lemma replay_loop_truncated_witness :
  let cut := {| data := Sample.header 1 ++ [ "001"; "002"; "003" ]%byte; fpos := 12 |} in
  let lone := {| data := Sample.header 1
                         ++ Sample.encode (Sample.enter 0x400100 0x7000 0 100)
                         ++ [ "001"; "002"; "003" ]%byte;
                 fpos := 12 |} in
  let w := Sample.start Sample.six_files in
  (∃ fp', replay_loop 1 false 0 cut w = Done (0, fp', w)) ∧
  (∃ fp', replay_loop 1 false 0 lone w = Done (-1, fp', perror "error reading rstack" w)).
Proof.
  intros cut lone w. split.
  - apply (proj1 (replay_loop_truncated 0 0 cut w) false). vm_compute. lia.
  - apply (proj1 (proj2 (replay_loop_truncated 0 0 lone w))
             (Sample.encode (Sample.enter 0x400100 0x7000 0 100))
             [ "001"; "002"; "003" ]%byte);
      try reflexivity.
    vm_compute. lia.
Defined.

(** C4 fails on the graph output: 0x7000 is not in the symbol table and
    [dladdr] knows it as [__libc_start_main]; the flat output prints that
    name, the graph output prints "unknown". *)
Theorem graph_ignores_dladdr :
  let r := Sample.leave 0x7000 0x400120 0 100 200 in
  let w := set_table (H := Sample.symbols) (Sample.by_address Sample.image)
             (Sample.start Sample.six_files) in
  let fp := {| data := Sample.trace [r]; fpos := 52 |} in
  find_symtab (table w) 0x7000 = None ∧
  dladdr 0x7000 = Some "__libc_start_main" ∧
  print_graph_rstack r fp w =
    (0, fp, printf (" 100 usec [ 1234] | } /* unknown */" +:+ nl) w) ∧
  print_flat_rstack r fp w =
    (0, fp, printf ("[0] 1234/0: ip (main <- __libc_start_main), time (200:100)" +:+ nl)
              (set_count 1 w)).
Proof. repeat split; vm_compute; reflexivity. Qed.

Lemma command_record_needs_mcount_witness :
  ∃ w' new,
    command_record [ "ftrace"; "plain" ] Sample.plain_options (Sample.start Sample.plain_files) = (-1, w') ∧
    log w' = [] ++ new ∧
    last new = Some (Printf (mcount_msg "mcount" "plain")) ∧
    (Fork ∉ new) ∧
    fs w' = Sample.plain_files.
Proof.
  destruct (command_record_needs_mcount [ "ftrace"; "plain" ] Sample.plain_options
              (Sample.start Sample.plain_files) 0 (Sample.by_address Sample.plain_image))
    as (w' & new & E & L & La & F & Hfs); [reflexivity | lia | reflexivity |].
  exists w', new. repeat split; done.
Defined.

(** the whole of the run above *)
Example record_without_mcount :
  command_record [ "ftrace"; "plain" ] Sample.plain_options (Sample.start Sample.plain_files) =
    (-1, {| fs := Sample.plain_files; environ := ∅;
            table := Sample.by_address Sample.plain_image; debug := false; count := 0;
            log := [ Rename "ftrace.data" "ftrace.data.old";
                     Printf (mcount_msg "mcount" "plain") ] |}).
Proof. vm_compute. reflexivity. Qed.

Lemma command_live_flow_witness :
  ∃ w', command_live [ "ftrace"; "a.out" ] Sample.options (Sample.start Sample.six_files)
          = Done (0, w') ∧
    fs w' !! "/tmp/ftrace-live-a1b2c3" = None ∧
    last (log w') = Some (Unlink "/tmp/ftrace-live-a1b2c3").
Proof.
  destruct (command_live_flow [ "ftrace"; "a.out" ] Sample.options
              (Sample.start Sample.six_files) "/tmp/ftrace-live-a1b2c3")
    as (_ & w2 & w' & _ & E & _ & Hfs & Hlast); [vm_compute; reflexivity|].
  exists w'. done.
Defined.

(** the whole of a live run: record, replay of the file the child left,
    unlink *)
Example live_run :
  (λ r, (r.1, log r.2)) <$>
    command_live [ "ftrace"; "a.out" ] Sample.options (Sample.start Sample.six_files) =
  Done (0, [ Mkstemp "/tmp/ftrace-live-a1b2c3"; Fflush; Fork; Waitpid;
             Printf ("          [ 1234] | main() {" +:+ nl);
             Printf ("          [ 1234] |   foo() {" +:+ nl);
             Printf ("  30 usec [ 1234] |     bar();" +:+ nl);
             Printf ("  60 usec [ 1234] |   } /* foo */" +:+ nl);
             Printf (" 100 usec [ 1234] | } /* main */" +:+ nl);
             Unlink "/tmp/ftrace-live-a1b2c3" ]).
Proof. vm_compute. reflexivity. Qed.

(** a live run of a binary built without -pg: no replay, and still 0 *)
Example live_run_without_mcount :
  (λ r, (r.1, log r.2)) <$>
    command_live [ "ftrace"; "plain" ] Sample.plain_options (Sample.start Sample.plain_files) =
  Done (0, [ Mkstemp "/tmp/ftrace-live-a1b2c3";
             Printf (mcount_msg "mcount" "plain");
             Unlink "/tmp/ftrace-live-a1b2c3" ]).
Proof. vm_compute. reflexivity. Qed.

(** the lookups of the symbol table of the examples *)
Example floor_lookup :
  let tab := Sample.by_address Sample.image in
  sym_name <$> find_symtab (SymbolH := Sample.symbols) tab 0x1005 = Some "foo" ∧
  find_symtab (SymbolH := Sample.symbols) tab 0x1020 = None ∧
  sym_name <$> find_symtab (SymbolH := Sample.symbols) tab 0x2003 = Some "bar" ∧
  sym_addr <$> find_symname (SymbolH := Sample.symbols) tab "mcount" = Some 0x400500.
Proof. repeat split. Qed.

Example tokens_skip_empty :
  tokens "foo,bar" = [ "foo"; "bar" ] ∧
  tokens ",:foo::bar:,baz," = [ "foo"; "bar"; "baz" ] ∧
  tokens "" = [] ∧ tokens ":" = [].
Proof. repeat split. Qed.

(** the records of the examples are read back from their bytes *)
Example decode_encode_six :
  Sample.decode <$> (Sample.encode <$> Sample.six) = Sample.six.
Proof. vm_compute. reflexivity. Qed.

(** a trace cut short, replayed: in the middle of the first record, and
    after a lone entry record *)
Example replay_cut_files :
  let w := Sample.start
             {[ "a.out" := Regular [ "127"; "E"; "L"; "F" ]%byte;
                "ftrace.data" := Regular (Sample.header 1 ++ [ "001"; "002" ]%byte);
                "lone.data" := Regular (Sample.trace [ Sample.enter 0x400100 0x7000 0 100 ]) ]} in
  (λ r, (r.1, log r.2)) <$> command_replay Sample.options w = Done (0, []) ∧
  (λ r, (r.1, log r.2)) <$> command_replay (with_filename "lone.data" Sample.options) w
    = Done (-1, [ Perror "error reading rstack" ]) ∧
  (λ r, (r.1, log r.2)) <$> command_replay (with_filename "lone.data" Sample.flat_options) w
    = Done (0, [ Printf ("[0] 1234/0: ip (__libc_start_main -> main), time (100)" +:+ nl) ]).
Proof. repeat split; vm_compute; reflexivity. Qed.

(** ** More runs on the sample platform *)

(** main calls foo and returns, and three bytes more are in the file *)
Lemma graph_replay_records_witness :
  let rs := [ Sample.enter 0x400100 0x7000 0 100; Sample.enter 0x1000 0x400120 1 110;
              Sample.leave 0x1000 0x400120 1 110 170;
              Sample.leave 0x400100 0x7000 0 100 200 ] in
  let w := Sample.start
             {[ "a.out" := Regular [ "127"; "E"; "L"; "F" ]%byte;
                "ftrace.data" := Regular (Sample.trace rs ++ [ "001"; "002"; "003" ]%byte) ]} in
  command_replay Sample.options w =
    Done (0, {| fs := fs w; environ := ∅; table := []; debug := false; count := 0;
                log := [ Printf ("          [ 1234] | main() {" +:+ nl);
                         Printf ("  60 usec [ 1234] |   foo();" +:+ nl);
                         Printf (" 100 usec [ 1234] | } /* main */" +:+ nl) ] |}).
Proof.
  intros rs w.
  pose proof (graph_replay_records Sample.options w (Sample.header 1)
                [ "001"; "002"; "003" ]%byte (Sample.encode <$> rs) 0
                (Sample.by_address Sample.image)) as E.
  etrans; [apply E; try reflexivity; try lia | vm_compute; reflexivity].
  - sample_header.
  - repeat constructor.
  - simpl. lia.
Defined.

(** main calls foo, foo returns, main calls bar, and the file ends *)
Lemma graph_replay_fails_on_last_entry_witness :
  let rs := [ Sample.enter 0x400100 0x7000 0 100; Sample.enter 0x1000 0x400120 1 110;
              Sample.leave 0x1000 0x400120 1 110 170;
              Sample.enter 0x2000 0x400130 1 180 ] in
  let w := Sample.start
             {[ "a.out" := Regular [ "127"; "E"; "L"; "F" ]%byte;
                "ftrace.data" := Regular (Sample.trace rs) ]} in
  ∃ w' new, command_replay Sample.options w = Done (-1, w') ∧
    log w' = [] ++ new ∧
    last new = Some (Perror "error reading rstack").
Proof.
  intros rs w.
  destruct (graph_replay_fails_on_last_entry Sample.options w (Sample.header 1) []
              (Sample.encode <$> rs) 0 (Sample.by_address Sample.image))
    as (ret & w' & new & E & L & Hlast & Hperror & _);
    try reflexivity; try lia.
  - sample_header.
  - repeat constructor.
  - simpl. lia.
  - assert (ret = -1) as ->.
    { apply Hlast. eexists. split; [reflexivity | vm_compute; reflexivity]. }
    exists w', new. split; [exact E|]. split; [exact L|]. by apply Hperror.
Defined.

(** the six records give five lines *)
Lemma graph_replay_line_count_witness :
  ∃ ret w' new,
    command_replay Sample.options (Sample.start Sample.six_files) = Done (ret, w') ∧
    log w' = [] ++ new ∧ (length new ≤ 6 ≤ 2 * length new)%nat.
Proof.
  destruct (graph_replay_line_count Sample.options (Sample.start Sample.six_files)
              (Sample.header 1) [] (Sample.encode <$> Sample.six) 0
              (Sample.by_address Sample.image))
    as (ret & w' & new & E & L & Hlen);
    try reflexivity; try lia.
  - sample_header.
  - repeat constructor.
  - simpl. lia.
  - by exists ret, w', new.
Defined.

(** an address list that fits the 4096 characters, and the same list in
    a buffer of eight *)
Lemma build_addrlist_exact_witness :
  build_addrlist (H := Sample.symbols) 4096 (Sample.by_address Sample.image)
    "nosuch,foo:bar" = Done ":0x1000:0x2000" ∧
  build_addrlist (H := Sample.symbols) 8 (Sample.by_address Sample.image)
    "nosuch,foo:bar" = Overrun.
Proof.
  split.
  - etrans; [apply (build_addrlist_exact (H := Sample.symbols) 4096); lia
            | vm_compute; reflexivity].
  - etrans; [apply (build_addrlist_exact (H := Sample.symbols) 8); lia
            | vm_compute; reflexivity].
Defined.

Lemma build_addrlist_unresolved_witness :
  build_addrlist (H := Sample.symbols) 4 (Sample.by_address Sample.image)
    "printf,malloc:free,:strlen" = Done "".
Proof.
  apply (build_addrlist_unresolved (H := Sample.symbols) 4); [lia|].
  intros name Hin. vm_compute in Hin.
  repeat (apply elem_of_cons in Hin as [-> | Hin]; [reflexivity|]).
  by apply elem_of_nil in Hin.
Defined.

(** an LD_PRELOAD of 4090 characters *)
Lemma setup_child_environ_overrun_witness :
  setup_child_environ (H := Sample.symbols) Sample.options [] false
    {[ "LD_PRELOAD" := string_of_list_ascii (repeat "x"%char 4090) ]} = Overrun.
Proof.
  apply (setup_child_environ_overrun (H := Sample.symbols) Sample.options [] false _
           (string_of_list_ascii (repeat "x"%char 4090))).
  left. split; [reflexivity|].
  apply Nat.leb_le. vm_compute. reflexivity.
Defined.

Lemma setup_child_environ_frame_witness :
  ∃ env', setup_child_environ (H := Sample.symbols)
            {| lib_path := Some "/opt/ftrace"; filter := Some "foo"; notrace := None;
               exename := "a.out"; filename := "run1.data"; flat := false; idx := 1 |}
            (Sample.by_address Sample.image) true
            {[ "HOME" := "/root"; "FTRACE_NOTRACE" := "0x1" ]} = Done env' ∧
    env' !! "HOME" = Some "/root" ∧
    is_Some (env' !! "FTRACE_NOTRACE") ∧
    is_Some (env' !! "LD_PRELOAD") ∧ is_Some (env' !! "LD_AUDIT").
Proof.
  destruct (setup_child_environ (H := Sample.symbols)
              {| lib_path := Some "/opt/ftrace"; filter := Some "foo"; notrace := None;
                 exename := "a.out"; filename := "run1.data"; flat := false; idx := 1 |}
              (Sample.by_address Sample.image) true
              {[ "HOME" := "/root"; "FTRACE_NOTRACE" := "0x1" ]}) as [env'| |] eqn:E;
    [|vm_compute in E; discriminate..].
  destruct (setup_child_environ_frame _ _ _ _ _ E) as (Hother & Hkeep & Hp & Ha).
  exists env'. split; [reflexivity|]. split; [|split; [|done]].
  - etrans; [apply Hother | reflexivity].
    unfold child_variables. vm_compute. intros Hin.
    repeat (apply elem_of_cons in Hin as [Hin | Hin]; [discriminate|]).
    by apply elem_of_nil in Hin.
  - apply Hkeep. by eexists.
Defined.


(** a run that leaves the trace, and a binary without [mcount] *)
Lemma command_record_returns_witness :
  (command_record [ "ftrace"; "a.out" ] Sample.options (Sample.start Sample.six_files)).1 = 0 ∧
  (command_record [ "ftrace"; "plain" ] Sample.plain_options
     (Sample.start Sample.plain_files)).1 = -1.
Proof.
  split.
  - apply (command_record_returns [ "ftrace"; "a.out" ] Sample.options
             (Sample.start Sample.six_files) 0 (Sample.by_address Sample.image));
      [reflexivity|].
    split; [lia|]. split; [by eexists|]. split; [reflexivity|].
    vm_compute. by eexists.
  - destruct (command_record_returns [ "ftrace"; "plain" ] Sample.plain_options
                (Sample.start Sample.plain_files) 0 (Sample.by_address Sample.plain_image))
      as [[Hzero | Hminus] Hiff]; [reflexivity | | exact Hminus].
    apply Hiff in Hzero as (_ & [s Hs] & _). vm_compute in Hs. discriminate.
Defined.

(** the environment of the child cannot be built, so [execv] fails: the
    old trace was moved away and there is no new one *)
Lemma command_record_exec_fails_witness :
  let w := {| fs := Sample.six_files;
              environ := {[ "LD_PRELOAD" := string_of_list_ascii (repeat "x"%char 4090) ]};
              table := no_symtab; debug := false; count := 0; log := [] |} in
  (λ r, (r.1, log r.2)) (command_record [ "ftrace"; "a.out" ] Sample.options w) =
    (-1, [ Rename "ftrace.data" "ftrace.data.old"; Fflush; Fork; Waitpid;
           Printf ("child (a.out) was terminated by signal: 6" +:+ nl);
           Printf ("Cannot generate data file" +:+ nl) ]).
Proof.
  intros w.
  pose proof (command_record_exec_fails [ "ftrace"; "a.out" ] Sample.options w 0
                (Sample.by_address Sample.image)
                {| sym_name := "mcount"; sym_addr := 0x400500; sym_size := 0 |}) as E.
  rewrite E; [vm_compute; reflexivity | reflexivity | lia | reflexivity | reflexivity |].
  vm_compute. reflexivity.
Defined.

(** five bytes of a header are refused; nine bytes pass, the three
    that are missing of the version being 0 in the header as it was *)
Lemma open_data_file_short_witness :
  let five := [ "F"; "t"; "r"; "a"; "c" ]%byte in
  let nine := [ "F"; "t"; "r"; "a"; "c"; "e"; "!"; "000"; "001" ]%byte in
  let w := Sample.start {[ "five.data" := Regular five; "nine.data" := Regular nine ]} in
  open_data_file "five.data" "a.out" w
    = (None, printf ("invalid magic string found!" +:+ nl) w) ∧
  open_data_file "nine.data" "a.out" w = (Some {| data := nine; fpos := 9 |}, w).
Proof.
  intros five nine w. split.
  - etrans; [apply (open_data_file_short "five.data" "a.out" w five);
             [reflexivity | simpl; lia]|].
    vm_compute. reflexivity.
  - etrans; [apply (open_data_file_short "nine.data" "a.out" w nine);
             [reflexivity | simpl; lia]|].
    vm_compute. reflexivity.
Defined.

(** the trace of a target that is no longer there *)
Lemma command_replay_load_fails_witness :
  let o := {| lib_path := None; filter := None; notrace := None; exename := "gone";
              filename := "ftrace.data"; flat := true; idx := 1 |} in
  command_replay o (Sample.start Sample.six_files)
    = Done (-1, Sample.start Sample.six_files).
Proof.
  intros o.
  etrans; [apply (command_replay_load_fails o (Sample.start Sample.six_files)
                    (Sample.header 1) (concat (Sample.encode <$> Sample.six))
                    (-1) []);
           [reflexivity | sample_header | reflexivity | lia]|].
  reflexivity.
Defined.

Lemma command_live_exec_fails_witness :
  let w := {| fs := Sample.six_files;
              environ := {[ "LD_PRELOAD" := string_of_list_ascii (repeat "x"%char 4090) ]};
              table := no_symtab; debug := false; count := 0; log := [] |} in
  ∃ w', command_live [ "ftrace"; "a.out" ] Sample.options w = Done (0, w') ∧
    log w' =
      [ Mkstemp "/tmp/ftrace-live-a1b2c3"; Fflush; Fork; Waitpid;
        Printf ("child (a.out) was terminated by signal: 6" +:+ nl);
        Printf ("invalid magic string found!" +:+ nl);
        Unlink "/tmp/ftrace-live-a1b2c3" ] ∧
    fs w' = Sample.six_files.
Proof.
  intros w.
  destruct (command_live_exec_fails [ "ftrace"; "a.out" ] Sample.options w
              "/tmp/ftrace-live-a1b2c3" 0 (Sample.by_address Sample.image)
              {| sym_name := "mcount"; sym_addr := 0x400500; sym_size := 0 |})
    as (w' & E & L & F);
    [reflexivity | discriminate | reflexivity | lia | reflexivity | reflexivity
    | vm_compute; reflexivity | reflexivity |].
  exists w'. split; [exact E|]. split; [exact L|].
  etrans; [exact F | vm_compute; reflexivity].
Defined.

(** the calls of [argp_parse] for the command line: ftrace record a.out *)
Lemma report_mode_unreachable_witness :
  let st n k := {| Cli.argv := [ "ftrace"; "record"; "a.out" ]; Cli.next := n;
                   Cli.arg_num := k |} in
  let calls := [ (ARGP_KEY_INIT, None, (st 0 0)%nat); (ARGP_KEY_ARG, Some "record", (st 2 0)%nat);
                 (ARGP_KEY_ARG, Some "a.out", (st 3 1)%nat); (ARGP_KEY_ARGS, None, (st 2 1)%nat) ] in
  (∃ o, parse_calls calls initial_opts false = Returns 0 o false ∧
        Cli.mode o ≠ FTRACE_MODE_REPORT) ∧
  parse_option ARGP_KEY_ARG (Some "report")
    {| Cli.argv := [ "ftrace"; "report"; "a.out" ]; Cli.next := 2; Cli.arg_num := 0 |}
    initial_opts false = Returns ARGP_ERR_UNKNOWN initial_opts false.
Proof.
  intros st calls.
  destruct (report_mode_unreachable calls false) as [Hmode Hword]. split.
  - eexists. split; [reflexivity|]. eapply Hmode. reflexivity.
  - by apply Hword.
Defined.

(** the target where a second word is looked for *)
Lemma parse_option_error_keeps_witness :
  let st := {| Cli.argv := [ "ftrace"; "record"; "a.out" ]; Cli.next := 3;
               Cli.arg_num := 1 |} in
  let o := set_mode FTRACE_MODE_RECORD initial_opts in
  parse_option ARGP_KEY_ARG (Some "a.out") st o true = Returns 7 o true ∧
  7 = ARGP_ERR_UNKNOWN ∧ o = o ∧ true = true.
Proof.
  intros st o. split; [reflexivity|].
  by apply (parse_option_error_keeps ARGP_KEY_ARG (Some "a.out") st o o true true 7).
Defined.

Lemma parse_calls_end_witness :
  let st n k := {| Cli.argv := [ "ftrace"; "record"; "a.out" ]; Cli.next := n;
                   Cli.arg_num := k |} in
  let calls := [ (ARGP_KEY_INIT, None, (st 0 0)%nat); (ARGP_KEY_ARG, Some "record", (st 2 0)%nat);
                 (ARGP_KEY_ARG, Some "a.out", (st 3 1)%nat); (ARGP_KEY_ARGS, None, (st 2 1)%nat) ] in
  let o := {| Cli.lib_path := None; Cli.filter := None; Cli.notrace := None;
              Cli.exename := Some "a.out"; Cli.filename := None;
              Cli.mode := FTRACE_MODE_RECORD; Cli.flat := 0; Cli.idx := 2 |} in
  parse_calls (calls ++ [ (ARGP_KEY_END, None, (st 3 2)%nat) ]) initial_opts false
    = Returns 0 o false ∧
  is_Some (Cli.exename o) ∧
  (Cli.mode o = FTRACE_MODE_RECORD ∨ Cli.mode o = FTRACE_MODE_REPLAY ∨
   Cli.mode o = FTRACE_MODE_LIVE).
Proof.
  intros st calls o. split; [reflexivity|].
  by apply (parse_calls_end calls None (st 3 2)%nat false 0 o false).
Defined.


(** ftrace record a.out, and ftrace a.out *)
Lemma main_without_file_option_witness :
  let st n k := {| Cli.argv := [ "ftrace"; "record"; "a.out" ]; Cli.next := n;
                   Cli.arg_num := k |} in
  let calls := [ (ARGP_KEY_INIT, None, (st 0 0)%nat); (ARGP_KEY_ARG, Some "record", (st 2 0)%nat);
                 (ARGP_KEY_ARG, Some "a.out", (st 3 1)%nat); (ARGP_KEY_ARGS, None, (st 2 1)%nat);
                 (ARGP_KEY_END, None, (st 3 2)%nat) ] in
  let o := {| Cli.lib_path := None; Cli.filter := None; Cli.notrace := None;
              Cli.exename := Some "a.out"; Cli.filename := None;
              Cli.mode := FTRACE_MODE_RECORD; Cli.flat := 0; Cli.idx := 2 |} in
  parse_calls calls initial_opts false = Returns 0 o false ∧
  main_switch [ "ftrace"; "record"; "a.out" ] o (Sample.start Sample.six_files) = None.
Proof.
  intros st calls o. split; [reflexivity|].
  apply (proj1 (main_without_file_option calls false false 0 o
                  [ "ftrace"; "record"; "a.out" ] (Sample.start Sample.six_files)
                  ltac:(by repeat constructor) eq_refl)).
  by left.
Defined.
